(** * The reindex orchestrator of the upgrade assistant

    A shallow embedding of the reindex service (the self-contained service
    of [part_007] and the later service of [part_006], which delegates to
    its [actions]) and of the worker's constructor guard, with the
    properties the specification states about them.

    Asynchronous code is embedded as state passing over a [World] that
    holds the saved-object store, the log of cluster requests and the
    clock; a rejected promise or a thrown value is the left summand of the
    result, and the world survives a throw, as side effects do. *)

From Stdlib Require Import ZArith List String Ascii Bool Lia DecimalString DecimalNat.
Import ListNotations.
Local Open Scope Z_scope.
Set Warnings "-register-all".

(* ------------------------------------------------------------------ *)
(** ** Data model *)

(** Modelled from the spec: [common/types] is not among the sources.  The
    progress markers, in the order the state machine walks them. *)
Module ReindexStep.
Inductive t : Set :=
| created
| mlUpgradeModeSet
| readonly
| newIndexCreated
| reindexStarted
| reindexCompleted
| aliasCreated
| mlUpgradeModeUnset.

Definition position (s : t) : nat :=
  match s with
  | created => 0
  | mlUpgradeModeSet => 1
  | readonly => 2
  | newIndexCreated => 3
  | reindexStarted => 4
  | reindexCompleted => 5
  | aliasCreated => 6
  | mlUpgradeModeUnset => 7
  end%nat.
End ReindexStep.

(** Modelled from the spec: the statuses of [common/types]. *)
Module ReindexStatus.
Inductive t : Set := inProgress | completed | failed | paused | cancelled.

Definition eqb (a b : t) : bool :=
  match a, b with
  | inProgress, inProgress | completed, completed | failed, failed
  | paused, paused | cancelled, cancelled => true
  | _, _ => false
  end.
End ReindexStatus.

(** A JSON value, for the parts of cluster bodies the service only
    forwards (settings, mappings, alias properties, failures). *)
Inductive Json : Set :=
| JNull
| JBool (b : bool)
| JNum (z : Z)
| JStr (s : string)
| JArr (items : list Json)
| JObj (members : list (string * Json)).

(** [value.key]; [JNull] stands for [undefined]. *)
Definition member (key : string) (value : Json) : Json :=
  match value with
  | JObj members =>
      match find (fun km => String.eqb (fst km) key) members with
      | Some (_, v) => v
      | None => JNull
      end
  | _ => JNull
  end.

(** Whether a value passes for true in a condition: [undefined], [null],
    [false], [0] and the empty string do not. *)
Definition truthy (value : Json) : bool :=
  match value with
  | JNull => false
  | JBool b => b
  | JNum z => negb (z =? 0)
  | JStr s => negb (String.eqb s "")
  | JArr _ => true
  | JObj _ => true
  end.

(** A JavaScript number as the service produces it: a literal, or the
    quotient [a / b] of two counters, kept symbolic so that no rounding
    of IEEE doubles enters the model. *)
Inductive Number : Set :=
| Lit (z : Z)
| Quot (a b : Z).

(** The attributes of a reindex operation.  [locked] holds the instant
    (milliseconds since the epoch) that the stored ISO string denotes;
    [None] is JavaScript's [null]. *)
Record ReindexOperation : Set := mkOp {
  indexName : string;
  newIndexName : string;
  status : ReindexStatus.t;
  lastCompletedStep : ReindexStep.t;
  locked : option Z;
  reindexTaskId : option string;
  reindexTaskPercComplete : option Number;
  errorMessage : option string
}.

Record ReindexSavedObject : Set := mkSO {
  id : nat;
  version : Z;
  attributes : ReindexOperation
}.

(** One member of an object literal passed as [Partial<ReindexOperation>]. *)
Inductive Member : Set :=
| status_ (s : ReindexStatus.t)
| lastCompletedStep_ (s : ReindexStep.t)
| locked_ (l : option Z)
| reindexTaskId_ (t : option string)
| reindexTaskPercComplete_ (n : option Number)
| errorMessage_ (m : option string).

Definition assign (a : ReindexOperation) (m : Member) : ReindexOperation :=
  match m with
  | status_ s =>
      mkOp (indexName a) (newIndexName a) s (lastCompletedStep a) (locked a)
           (reindexTaskId a) (reindexTaskPercComplete a) (errorMessage a)
  | lastCompletedStep_ s =>
      mkOp (indexName a) (newIndexName a) (status a) s (locked a)
           (reindexTaskId a) (reindexTaskPercComplete a) (errorMessage a)
  | locked_ l =>
      mkOp (indexName a) (newIndexName a) (status a) (lastCompletedStep a) l
           (reindexTaskId a) (reindexTaskPercComplete a) (errorMessage a)
  | reindexTaskId_ t =>
      mkOp (indexName a) (newIndexName a) (status a) (lastCompletedStep a)
           (locked a) t (reindexTaskPercComplete a) (errorMessage a)
  | reindexTaskPercComplete_ n =>
      mkOp (indexName a) (newIndexName a) (status a) (lastCompletedStep a)
           (locked a) (reindexTaskId a) n (errorMessage a)
  | errorMessage_ m =>
      mkOp (indexName a) (newIndexName a) (status a) (lastCompletedStep a)
           (locked a) (reindexTaskId a) (reindexTaskPercComplete a) m
  end.

(** [{ ...a, m1, m2, ... }]: later members override earlier ones. *)
Definition spread (a : ReindexOperation) (ms : list Member) : ReindexOperation :=
  fold_left assign ms a.

(** The singleton document that counts ML reindexes in flight. *)
Record MlSavedObject : Set := mkMl {
  mlVersion : Z;
  mlReindexCount : Z;
  mlLocked : option Z
}.

(* ------------------------------------------------------------------ *)
(** ** Thrown values *)

(** An [Error] object: the Boom status code when it is a Boom error, its
    message, and the frames the runtime appended to its stack. *)
Record ErrorObject : Set := mkError {
  name : string;
  statusCode : option Z;
  message : string;
  frames : string
}.

(** What a [catch (e)] of these files receives: an [Error] (every throw
    site of the service, the cluster client and the store reject with
    one), or another value that has a [toString()], given by what that
    returns.  [undefined] and [null], which have none, are thrown nowhere
    here and are not represented. *)
Inductive Thrown : Set :=
| ThrownError (e : ErrorObject)
| ThrownValue (rendering : string).

(** The first line of [e.stack], which the runtime writes when the error
    is made: the name alone when the message is empty, the message alone
    when the name is empty, and [name: message] otherwise. *)
Definition header (e : ErrorObject) : string :=
  if String.eqb (name e) "" then message e
  else if String.eqb (message e) "" then name e
       else (name e ++ ": " ++ message e)%string.

(** [e.stack]: the first line, then the frames. *)
Definition stack (e : ErrorObject) : string := (header e ++ frames e)%string.

Module Boom.
Definition conflict (msg fr : string) : Thrown :=
  ThrownError (mkError "Error" (Some 409) msg fr).
Definition notFound (msg fr : string) : Thrown :=
  ThrownError (mkError "Error" (Some 404) msg fr).
Definition badData (msg fr : string) : Thrown :=
  ThrownError (mkError "Error" (Some 422) msg fr).
Definition badImplementation (msg fr : string) : Thrown :=
  ThrownError (mkError "Error" (Some 500) msg fr).

Definition statusOf (t : Thrown) : option Z :=
  match t with
  | ThrownError e => statusCode e
  | ThrownValue _ => None
  end.
End Boom.

(** [new Error(msg)] *)
Definition newError (msg fr : string) : Thrown :=
  ThrownError (mkError "Error" None msg fr).

(** The [TypeError] of reading a property of [undefined]. *)
Definition newTypeError (msg fr : string) : Thrown :=
  ThrownError (mkError "TypeError" None msg fr).

(** [e instanceof Error ? e.stack : e.toString()] *)
Definition stackOrString (e : Thrown) : string :=
  match e with
  | ThrownError err => stack err
  | ThrownValue rendering => rendering
  end.

(* ------------------------------------------------------------------ *)
(** ** Cluster requests *)

(** A member of the [actions] list of [indices.updateAliases].  The
    properties Elasticsearch reports for an alias (filter, routing, ...)
    are carried as they were read; they never hold the keys [index] or
    [alias], so spreading them cannot override these two. *)
Inductive AliasAction : Set :=
| add (index alias : string) (properties : list (string * Json))
| remove_index (index : string).

(** The [script] member of a reindex body; its [source] is a constant
    text and is not repeated here. *)
Record Script : Set := mkScript {
  lang : string;
  booleanFieldPaths : list (list string)
}.

Inductive Request : Set :=
| indices_exists (index : string)
| indices_putSettings (index : string) (blocks_write : bool)
| indices_create (index : string) (settings mappings : Json)
| indices_getMapping (index : string)
| indices_getAlias (index : string)
| indices_updateAliases (actions : list AliasAction)
| reindex (source dest : string) (script : option Script)
| tasks_get (taskId : option string)
| delete_task (taskId : option string)
| get_flat_settings (index : string)
| get_nodes
| ml_set_upgrade_mode (enabled : bool).

Record Acknowledged : Set := mkAck { acknowledged : bool }.

(** The reply of [tasks.get]; [response] is absent while the task runs. *)
Record TaskResponse : Set := mkTask {
  completed : bool;
  task_status_created : Z;
  task_status_total : Z;
  response_failures : option (list Json)
}.

Record FlatSettings : Set := mkFlat {
  flat_settings : Json;
  flat_mappings : Json
}.

Record NodeInfo : Set := mkNode {
  node_name : string;
  node_version : string
}.

(** The type of the reply to each request. *)
Definition Reply (r : Request) : Set :=
  match r with
  | indices_exists _ => bool
  | indices_putSettings _ _ => Acknowledged
  | indices_create _ _ _ => Acknowledged
  | indices_getMapping _ => option (list (string * Json))
  | indices_getAlias _ => option (list (string * list (string * Json)))
  | indices_updateAliases _ => Acknowledged
  | reindex _ _ _ => string
  | tasks_get _ => TaskResponse
  | delete_task _ => string
  | get_flat_settings _ => option FlatSettings
  | get_nodes => list NodeInfo
  | ml_set_upgrade_mode _ => Acknowledged
  end.

(** A cluster, as the service sees it: the reply (or rejection) to a
    request, given the requests made before it. *)
Definition Cluster : Type :=
  list Request -> forall r : Request, Thrown + Reply r.

(* ------------------------------------------------------------------ *)
(** ** The world and the monad of asynchronous code *)

(** The saved objects of type [reindex-operation] with the id the next
    one gets, the ML counter document, the requests the cluster has
    received, and the instant [moment()] reads. *)
Record World : Set := mkWorld {
  store : list ReindexSavedObject;
  nextId : nat;
  mlDoc : MlSavedObject;
  trace : list Request;
  clock : Z
}.

Definition setStore (st : list ReindexSavedObject) (w : World) : World :=
  mkWorld st (nextId w) (mlDoc w) (trace w) (clock w).
Definition setNextId (n : nat) (w : World) : World :=
  mkWorld (store w) n (mlDoc w) (trace w) (clock w).
Definition setMlDoc (d : MlSavedObject) (w : World) : World :=
  mkWorld (store w) (nextId w) d (trace w) (clock w).
Definition logRequest (r : Request) (w : World) : World :=
  mkWorld (store w) (nextId w) (mlDoc w) (trace w ++ [r]) (clock w).

Definition M (A : Type) : Type := World -> (Thrown + A) * World.

Definition ret {A} (a : A) : M A := fun w => (inr a, w).
Definition throw {A} (e : Thrown) : M A := fun w => (inl e, w).
Definition bind {A B} (m : M A) (k : A -> M B) : M B :=
  fun w =>
    match m w with
    | (inl e, w') => (inl e, w')
    | (inr a, w') => k a w'
    end.

Declare Scope async_scope.
Delimit Scope async_scope with async.
Notation "x <- m ;; k" := (bind m (fun x => k))
  (at level 61, m at next level, right associativity) : async_scope.
Notation "m ;; k" := (bind m (fun _ => k))
  (at level 61, right associativity) : async_scope.
Local Open Scope async_scope.

(** [try { x = await body(x) } catch (e) { x = await handler(e, x) }]
    around a local variable [x]: the handler sees the value [x] had when
    the body threw. *)
Definition tryCatch {X} (x : X) (body : X -> M X) (handler : Thrown -> X -> M X)
  : M X :=
  fun w =>
    match body x w with
    | (inr x', w') => (inr x', w')
    | (inl e, w') => handler e x w'
    end.

(** [try { x = await body(x) } finally { x = await fin(x) } return x]: the
    finaliser runs on both paths; after a throw it sees the old [x] and
    the pending exception is re-thrown unless the finaliser throws. *)
Definition tryFinally {X} (x : X) (body : X -> M X) (fin : X -> M X) : M X :=
  fun w =>
    match body x w with
    | (inr x', w') => fin x' w'
    | (inl e, w') =>
        match fin x w' with
        | (inr _, w'') => (inl e, w'')
        | (inl e', w'') => (inl e', w'')
        end
    end.

(** A promise whose rejection reaches nobody, because it is not awaited
    or because it ends in [catch(e => e)]: what it did stays done. *)
Definition swallow {A} (m : M A) : M unit :=
  fun w => (inr tt, snd (m w)).

(** [callCluster(endpoint, params)]: the request is logged and answered. *)
Definition callCluster (cluster : Cluster) (r : Request) : M (Reply r) :=
  fun w => (cluster (trace w) r, logRequest r w).

(** [moment()]: the current instant, in milliseconds. *)
Definition moment : M Z := fun w => (inr (clock w), w).

Module Moment.
(** [m.subtract(d)] mutates [m] and returns it: the pair is the instant
    held by the receiver afterwards and the instant of the result. *)
Definition subtract (m d : Z) : Z * Z := (m - d, m - d).

(** [m.format()] prints ISO 8601 to the second; the result is the
    instant that string denotes when it is parsed again. *)
Definition format (m : Z) : Z := 1000 * (m / 1000).

(** [moment(s)] for a stored string [s]. *)
Definition parse (s : Z) : Z := s.
End Moment.

(* ------------------------------------------------------------------ *)
(** ** The saved-objects client *)

Fixpoint lookupObj (i : nat) (st : list ReindexSavedObject)
  : option ReindexSavedObject :=
  match st with
  | [] => None
  | o :: rest => if Nat.eqb (id o) i then Some o else lookupObj i rest
  end.

Fixpoint replaceObj (o : ReindexSavedObject) (st : list ReindexSavedObject)
  : list ReindexSavedObject :=
  match st with
  | [] => []
  | x :: rest =>
      if Nat.eqb (id x) (id o) then o :: rest else x :: replaceObj o rest
  end.

Fixpoint removeObj (i : nat) (st : list ReindexSavedObject)
  : list ReindexSavedObject :=
  match st with
  | [] => []
  | x :: rest => if Nat.eqb (id x) i then rest else x :: removeObj i rest
  end.

(** Modelled from the spec: the persistence store is not among the
    sources.  [update] is the optimistic-concurrency update of section
    4.1: it fails with a conflict when the stored version has advanced
    past the caller's. *)
Module client.
Definition update (i : nat) (attrs : ReindexOperation) (v : Z)
  : M ReindexSavedObject :=
  fun w =>
    match lookupObj i (store w) with
    | None => (inl (Boom.notFound "Saved object not found" ""), w)
    | Some o =>
        if version o =? v then
          let o' := mkSO i (v + 1) attrs in
          (inr o', setStore (replaceObj o' (store w)) w)
        else (inl (Boom.conflict "version conflict" ""), w)
    end.

Definition create (attrs : ReindexOperation) : M ReindexSavedObject :=
  fun w =>
    let o := mkSO (nextId w) 1 attrs in
    (inr o, setNextId (S (nextId w)) (setStore (store w ++ [o]) w)).

Definition delete (i : nat) : M unit :=
  fun w =>
    match lookupObj i (store w) with
    | None => (inl (Boom.notFound "Saved object not found" ""), w)
    | Some _ => (inr tt, setStore (removeObj i (store w)) w)
    end.

(** [find] with a search on one field; the hits keep the store's order. *)
Definition find (matches : ReindexOperation -> bool)
  : M (list ReindexSavedObject) :=
  fun w => (inr (filter (fun o => matches (attributes o)) (store w)), w).
End client.

(* ------------------------------------------------------------------ *)
(** ** The self-contained service ([part_007]) *)

(** [moment.duration(90, 'seconds')], in milliseconds. *)
Definition LOCK_WINDOW : Z := 90 * 1000.

(** [`${i}`] for a loop counter or a version number, and for a task id
    that may be [null]. *)
Definition decimal (i : nat) : string := NilEmpty.string_of_uint (Nat.to_uint i).

Definition interpolate (s : option string) : string :=
  match s with
  | Some text => text
  | None => "null"
  end.

Module LegacyService.
Section Factory.
(** [callCluster], the frames the runtime appends to the stack of an
    error made here, and the helpers of [index_settings] and of the
    platform that are not among the sources. *)
Variable cluster : Cluster.
Variable stackFrames : string.
Variable transformFlatSettings : FlatSettings -> Json * Json.
Variable findBooleanFields : Json -> list (list string).
Variable JSON_stringify : Json -> string.

Definition updateReindexOp (reindexOp : ReindexSavedObject) (attrs : list Member)
  : M ReindexSavedObject :=
  now <- moment ;;
  client.update (id reindexOp)
    (spread (attributes reindexOp) (locked_ (Some (Moment.format now)) :: attrs))
    (version reindexOp).

(** Marks the operation as locked by this process.  [now.subtract]
    changes the very object that [now.format()] prints afterwards. *)
Definition acquireLock (reindexOp : ReindexSavedObject) : M ReindexSavedObject :=
  now <- moment ;;
  let '(now, held) :=
    match locked (attributes reindexOp) with
    | Some l =>
        let lockedTime := Moment.parse l in
        let '(now, shifted) := Moment.subtract now LOCK_WINDOW in
        (now, shifted <? lockedTime)
    | None => (now, false)
    end in
  if held then
    throw (Boom.conflict
             "Another Kibana process is currently modifying this reindex operation."
             stackFrames)
  else
    client.update (id reindexOp)
      (spread (attributes reindexOp) [locked_ (Some (Moment.format now))])
      (version reindexOp).

Definition releaseLock (reindexOp : ReindexSavedObject) : M ReindexSavedObject :=
  client.update (id reindexOp)
    (spread (attributes reindexOp) [locked_ None])
    (version reindexOp).

(** The search for the quoted name in [indexName] is read as the records
    of that index. *)
Definition findReindexOperations (name : string) : M (list ReindexSavedObject) :=
  client.find (fun a => String.eqb (indexName a) name).

Definition getBooleanFieldPaths (name : string) : M (list (list string)) :=
  results <- callCluster cluster (indices_getMapping name) ;;
  match results with
  | None =>
      throw (newTypeError "Cannot read property 'mappings' of undefined" stackFrames)
  | Some allMappings =>
      if (1 <? List.length allMappings)%nat then
        throw (newError "Cannot reindex indices with more than one mapping type."
                        stackFrames)
      else
        match allMappings with
        | (_, mapping) :: _ =>
            (* It's possible an index doesn't have a mapping. *)
            if truthy mapping
            then ret (findBooleanFields (member "properties" mapping))
            else ret []
        | [] => ret []
        end
  end.

Definition getFlatSettings (name : string) : M FlatSettings :=
  flatSettings <- callCluster cluster (get_flat_settings name) ;;
  match flatSettings with
  | None => throw (Boom.notFound ("Index " ++ name ++ " does not exist.") stackFrames)
  | Some fs => ret fs
  end.

Fixpoint getNewIndexName_for (name : string) (attempts : nat) (range : list nat)
  : M string :=
  match range with
  | [] =>
      throw (newError
               ("Could not generate an indexName that does not already exist after "
                  ++ decimal attempts ++ " attempts.") stackFrames)
  | i :: rest =>
      let newName := (name ++ "-reindex-" ++ decimal i)%string in
      taken <- callCluster cluster (indices_exists newName) ;;
      if negb taken then ret newName else getNewIndexName_for name attempts rest
  end.

(** [for (const i of range(0, attempts))], with [attempts = 100]. *)
Definition getNewIndexName (name : string) : M string :=
  getNewIndexName_for name 100 (seq 0 100).

Definition setReadonly (reindexOp : ReindexSavedObject) : M ReindexSavedObject :=
  putReadonly <- callCluster cluster
                   (indices_putSettings (indexName (attributes reindexOp)) true) ;;
  if negb (acknowledged putReadonly) then
    throw (newError "Index could not be set to readonly." stackFrames)
  else updateReindexOp reindexOp [lastCompletedStep_ ReindexStep.readonly].

Definition createNewIndex (reindexOp : ReindexSavedObject) : M ReindexSavedObject :=
  flatSettings <- getFlatSettings (indexName (attributes reindexOp)) ;;
  let '(settings, mappings) := transformFlatSettings flatSettings in
  createIndex <- callCluster cluster
                   (indices_create (newIndexName (attributes reindexOp))
                                   settings mappings) ;;
  if negb (acknowledged createIndex) then
    throw (Boom.badImplementation
             ("Index could not be created: " ++ newIndexName (attributes reindexOp))
             stackFrames)
  else updateReindexOp reindexOp [lastCompletedStep_ ReindexStep.newIndexCreated].

Definition startReindexing (reindexOp : ReindexSavedObject) : M ReindexSavedObject :=
  paths <- getBooleanFieldPaths (indexName (attributes reindexOp)) ;;
  let script :=
    match paths with
    | [] => None
    | _ :: _ => Some (mkScript "painless" paths)
    end in
  startReindex <- callCluster cluster
                    (reindex (indexName (attributes reindexOp))
                             (newIndexName (attributes reindexOp)) script) ;;
  updateReindexOp reindexOp
    [lastCompletedStep_ ReindexStep.reindexStarted;
     reindexTaskId_ (Some startReindex);
     reindexTaskPercComplete_ (Some (Lit 0))].

Definition updateReindexStatus (reindexOp : ReindexSavedObject)
  : M ReindexSavedObject :=
  let taskId := reindexTaskId (attributes reindexOp) in
  taskResponse <- callCluster cluster (tasks_get taskId) ;;
  if completed taskResponse then
    if task_status_created taskResponse <? task_status_total taskResponse then
      match response_failures taskResponse with
      | None =>
          throw (newTypeError "Cannot read property 'failures' of undefined"
                              stackFrames)
      | Some failures =>
          let failureExample :=
            match failures with
            | f :: _ => JSON_stringify f
            | [] => "undefined"%string
            end in
          throw (Boom.badData
                   ("Reindexing failed with failures like: " ++ failureExample)
                   stackFrames)
      end
    else
      deleteTaskResp <- callCluster cluster (delete_task taskId) ;;
      if negb (String.eqb deleteTaskResp "deleted") then
        throw (Boom.badImplementation
                 ("Could not delete reindexing task " ++ interpolate taskId)
                 stackFrames)
      else
        updateReindexOp reindexOp
          [lastCompletedStep_ ReindexStep.reindexCompleted;
           reindexTaskPercComplete_ (Some (Lit 1))]
  else
    let perc := Quot (task_status_created taskResponse)
                     (task_status_total taskResponse) in
    updateReindexOp reindexOp [reindexTaskPercComplete_ (Some perc)].

Definition switchAlias (reindexOp : ReindexSavedObject) : M ReindexSavedObject :=
  let name := indexName (attributes reindexOp) in
  let newName := newIndexName (attributes reindexOp) in
  aliasResponse <- callCluster cluster
                     (indices_updateAliases
                        [add newName name []; remove_index name]) ;;
  if negb (acknowledged aliasResponse) then
    throw (Boom.badImplementation "Index aliases could not be created." stackFrames)
  else
    updateReindexOp reindexOp
      [lastCompletedStep_ ReindexStep.aliasCreated;
       status_ ReindexStatus.completed].

(** The existence check is not awaited there: the request is made, and
    the promise it returns is truthy whatever the cluster answers. *)
Definition createReindexOperation (name : string) : M ReindexSavedObject :=
  swallow (callCluster cluster (indices_exists name)) ;;
  existingReindexOps <- findReindexOperations name ;;
  match existingReindexOps with
  | [] => ret tt
  | existingOp :: _ =>
      if ReindexStatus.eqb (status (attributes existingOp)) ReindexStatus.failed
      then client.delete (id existingOp)
      else throw (Boom.badImplementation
                    ("A reindex operation already in-progress for " ++ name)
                    stackFrames)
  end ;;
  fresh <- getNewIndexName name ;;
  client.create
    (mkOp name fresh ReindexStatus.inProgress ReindexStep.created
          None None None None).

Definition processNextStep (reindexOp : ReindexSavedObject) : M ReindexSavedObject :=
  (* If locking the operation fails, we don't want to catch it. *)
  reindexOp <- acquireLock reindexOp ;;
  tryFinally reindexOp
    (fun reindexOp =>
       tryCatch reindexOp
         (fun reindexOp =>
            match lastCompletedStep (attributes reindexOp) with
            | ReindexStep.created => setReadonly reindexOp
            | ReindexStep.readonly => createNewIndex reindexOp
            | ReindexStep.newIndexCreated => startReindexing reindexOp
            | ReindexStep.reindexStarted => updateReindexStatus reindexOp
            | ReindexStep.reindexCompleted => switchAlias reindexOp
            | _ => ret reindexOp
            end)
         (fun e reindexOp =>
            updateReindexOp reindexOp
              [status_ ReindexStatus.failed;
               errorMessage_ (Some (stackOrString e))]))
    releaseLock.
End Factory.
End LegacyService.

(* ------------------------------------------------------------------ *)
(** ** The actions the later service delegates to *)

(** The [ReindexActions] interface, as [part_006] and its test use it. *)
Record ReindexActions : Type := mkActions {
  createReindexOp : string -> M ReindexSavedObject;
  deleteReindexOp : ReindexSavedObject -> M unit;
  updateReindexOp : ReindexSavedObject -> list Member -> M ReindexSavedObject;
  runWhileLocked :
    ReindexSavedObject -> (ReindexSavedObject -> M ReindexSavedObject) ->
    M ReindexSavedObject;
  findReindexOperations : string -> M (list ReindexSavedObject);
  findAllByStatus : ReindexStatus.t -> M (list ReindexSavedObject);
  getBooleanFieldPaths : string -> M (list (list string));
  getFlatSettings : string -> M (option FlatSettings);
  cleanupChanges : string -> M unit;
  isMlIndex : string -> bool;
  incrementMlReindexes : M unit;
  decrementMlReindexes : M unit;
  runWhileMlLocked : (MlSavedObject -> M MlSavedObject) -> M MlSavedObject
}.

(** Modelled from the spec: the ML counter record of the store, read and
    updated with the caller's observed version. *)
Module mlCounter.
Definition get : M MlSavedObject := fun w => (inr (mlDoc w), w).

Definition update (seen : MlSavedObject) (count : Z) (lock : option Z)
  : M MlSavedObject :=
  fun w =>
    if mlVersion (mlDoc w) =? mlVersion seen then
      let d := mkMl (mlVersion seen + 1) count lock in
      (inr d, setMlDoc d w)
    else (inl (Boom.conflict "version conflict" ""), w).
End mlCounter.

Module Actions.
Section Factory.
Variable cluster : Cluster.
Variable stackFrames : string.
Variable findBooleanFields : Json -> list (list string).
(** Which index names are ML system indices: left open. *)
Variable mlIndex : string -> bool.

(** The creation of [part_007]'s [createReindexOperation]. *)
Definition createReindexOp (name : string) : M ReindexSavedObject :=
  fresh <- LegacyService.getNewIndexName cluster stackFrames name ;;
  client.create
    (mkOp name fresh ReindexStatus.inProgress ReindexStep.created
          None None None None).

Definition deleteReindexOp (reindexOp : ReindexSavedObject) : M unit :=
  client.delete (id reindexOp).

(** Modelled from the spec: the lease discipline of section 4.3, around
    [acquireLock] and [releaseLock] of [part_007]: stamp the lease,
    perform the body, always clear the lease on exit. *)
Definition runWhileLocked (reindexOp : ReindexSavedObject)
           (func : ReindexSavedObject -> M ReindexSavedObject)
  : M ReindexSavedObject :=
  reindexOp <- LegacyService.acquireLock stackFrames reindexOp ;;
  tryFinally reindexOp func LegacyService.releaseLock.

Definition findAllByStatus (s : ReindexStatus.t) : M (list ReindexSavedObject) :=
  client.find (fun a => ReindexStatus.eqb (status a) s).

(** Modelled from the spec: a null result signals that the index does
    not exist. *)
Definition getFlatSettings (name : string) : M (option FlatSettings) :=
  callCluster cluster (get_flat_settings name).

(** Modelled from the spec: cleanup reverses the write block on the
    source index, best effort; its errors are not propagated. *)
Definition cleanupChanges (name : string) : M unit :=
  swallow (callCluster cluster (indices_putSettings name false)).

(** Modelled from the spec: the counter's lease has the semantics of an
    operation's: a lease younger than the lock window is refused with a
    conflict, otherwise it is stamped with the current time, and it is
    cleared on exit. *)
Definition acquireMlLock (d : MlSavedObject) : M MlSavedObject :=
  now <- moment ;;
  let held :=
    match mlLocked d with
    | Some l => now - LOCK_WINDOW <? l
    | None => false
    end in
  if held then
    throw (Boom.conflict "Another Kibana process is currently modifying the ML document."
                         stackFrames)
  else mlCounter.update d (mlReindexCount d) (Some (Moment.format now)).

Definition releaseMlLock (d : MlSavedObject) : M MlSavedObject :=
  mlCounter.update d (mlReindexCount d) None.

Definition runWhileMlLocked (func : MlSavedObject -> M MlSavedObject)
  : M MlSavedObject :=
  d <- mlCounter.get ;;
  d <- acquireMlLock d ;;
  tryFinally d func releaseMlLock.

(** Modelled from the spec: the counter is incremented and decremented
    under the counter's lease. *)
Definition incrementMlReindexes : M unit :=
  runWhileMlLocked
    (fun d => mlCounter.update d (mlReindexCount d + 1) (mlLocked d)) ;;
  ret tt.

Definition decrementMlReindexes : M unit :=
  runWhileMlLocked
    (fun d => mlCounter.update d (mlReindexCount d - 1) (mlLocked d)) ;;
  ret tt.

Definition reindexActionsFactory : ReindexActions :=
  mkActions
    createReindexOp
    deleteReindexOp
    LegacyService.updateReindexOp
    runWhileLocked
    LegacyService.findReindexOperations
    findAllByStatus
    (LegacyService.getBooleanFieldPaths cluster stackFrames findBooleanFields)
    getFlatSettings
    cleanupChanges
    mlIndex
    incrementMlReindexes
    decrementMlReindexes
    runWhileMlLocked.
End Factory.
End Actions.

(* ------------------------------------------------------------------ *)
(** ** The service of [part_006] *)

(** [VERSION_REGEX = /^([1-9]+)\.([0-9]+)\.([0-9]+)/] *)
Module VersionRegex.
Definition digit (c : ascii) : bool :=
  ((48 <=? nat_of_ascii c) && (nat_of_ascii c <=? 57))%nat.
Definition nonzero_digit (c : ascii) : bool :=
  ((49 <=? nat_of_ascii c) && (nat_of_ascii c <=? 57))%nat.

(** The longest prefix in a character class, and what follows it. *)
Fixpoint span (p : ascii -> bool) (s : string) : string * string :=
  match s with
  | EmptyString => (EmptyString, EmptyString)
  | String c rest =>
      if p c then let '(run, tail) := span p rest in (String c run, tail)
      else (EmptyString, s)
  end.

Definition dot (s : string) : option string :=
  match s with
  | String "."%char rest => Some rest
  | _ => None
  end.

(** [version.match(VERSION_REGEX)]: the three groups, or [None] for
    [null].  No class contains the dot, so the greedy runs are the only
    candidates. *)
Definition matches (version : string) : option (string * string * string) :=
  let '(major, r1) := span nonzero_digit version in
  match major, dot r1 with
  | String _ _, Some r2 =>
      let '(minor, r3) := span digit r2 in
      match minor, dot r3 with
      | String _ _, Some r4 =>
          let '(patch, _) := span digit r4 in
          match patch with
          | String _ _ => Some (major, minor, patch)
          | EmptyString => None
          end
      | _, _ => None
      end
  | _, _ => None
  end.

(** [parseInt(s, 10)] on a run of digits. *)
Fixpoint parseInt_from (acc : Z) (s : string) : Z :=
  match s with
  | EmptyString => acc
  | String c rest => parseInt_from (10 * acc + Z.of_nat (nat_of_ascii c - 48)) rest
  end.
Definition parseInt (s : string) : Z := parseInt_from 0 s.
End VersionRegex.

Module ReindexService.
Section Factory.
Variable cluster : Cluster.
Variable actions : ReindexActions.
Variable stackFrames : string.
Variable transformFlatSettings : FlatSettings -> Json * Json.
Variable JSON_stringify : Json -> string.

(** The filter callback; [None] when [match] returned [null] and
    reading [matches[1]] throws. *)
Definition outdated (minMajor minMinor : Z) (node : NodeInfo) : option bool :=
  match VersionRegex.matches (node_version node) with
  | None => None
  | Some (g1, g2, _) =>
      let major := VersionRegex.parseInt g1 in
      let minor := VersionRegex.parseInt g2 in
      Some (negb ((minMajor <? major) || ((major =? minMajor) && (minMinor <=? minor))))
  end.

Fixpoint filterOutdated (minMajor minMinor : Z) (nodes : list NodeInfo)
  : option (list NodeInfo) :=
  match nodes with
  | [] => Some []
  | node :: rest =>
      match outdated minMajor minMinor node with
      | None => None
      | Some keep =>
          match filterOutdated minMajor minMinor rest with
          | None => None
          | Some kept => Some (if keep then node :: kept else kept)
          end
      end
  end.

Definition validateNodesMinimumVersion (minMajor minMinor : Z) : M unit :=
  nodesResponse <- callCluster cluster get_nodes ;;
  match filterOutdated minMajor minMinor nodesResponse with
  | None => throw (newTypeError "Cannot read property '1' of null" stackFrames)
  | Some [] => ret tt
  | Some outDatedNodes =>
      let nodeList := JSON_stringify (JArr (map (fun n => JStr (node_name n))
                                                outDatedNodes)) in
      throw (newError
               ("Some nodes are not on minimum version ("
                  ++ decimal (Z.to_nat minMajor) ++ "." ++ decimal (Z.to_nat minMinor)
                  ++ ".0)  required: " ++ nodeList) stackFrames)
  end.

Definition setMlUpgradeMode (reindexOp : ReindexSavedObject) : M ReindexSavedObject :=
  if negb (actions.(isMlIndex) (indexName (attributes reindexOp))) then
    actions.(updateReindexOp) reindexOp
      [lastCompletedStep_ ReindexStep.mlUpgradeModeSet]
  else
    actions.(incrementMlReindexes) ;;
    actions.(runWhileMlLocked)
      (fun mlDoc =>
         validateNodesMinimumVersion 6 7 ;;
         res <- callCluster cluster (ml_set_upgrade_mode true) ;;
         if negb (acknowledged res) then
           throw (newError "Could not stop ML jobs" stackFrames)
         else ret mlDoc) ;;
    actions.(updateReindexOp) reindexOp
      [lastCompletedStep_ ReindexStep.mlUpgradeModeSet].

Definition setReadonly (reindexOp : ReindexSavedObject) : M ReindexSavedObject :=
  putReadonly <- callCluster cluster
                   (indices_putSettings (indexName (attributes reindexOp)) true) ;;
  if negb (acknowledged putReadonly) then
    throw (newError "Index could not be set to readonly." stackFrames)
  else actions.(updateReindexOp) reindexOp [lastCompletedStep_ ReindexStep.readonly].

Definition createNewIndex (reindexOp : ReindexSavedObject) : M ReindexSavedObject :=
  flatSettings <- actions.(getFlatSettings) (indexName (attributes reindexOp)) ;;
  match flatSettings with
  | None =>
      throw (Boom.notFound
               ("Index " ++ indexName (attributes reindexOp) ++ " does not exist.")
               stackFrames)
  | Some flatSettings =>
      let '(settings, mappings) := transformFlatSettings flatSettings in
      createIndex <- callCluster cluster
                       (indices_create (newIndexName (attributes reindexOp))
                                       settings mappings) ;;
      if negb (acknowledged createIndex) then
        throw (Boom.badImplementation
                 ("Index could not be created: "
                    ++ newIndexName (attributes reindexOp)) stackFrames)
      else
        actions.(updateReindexOp) reindexOp
          [lastCompletedStep_ ReindexStep.newIndexCreated]
  end.

Definition startReindexing (reindexOp : ReindexSavedObject) : M ReindexSavedObject :=
  paths <- actions.(getBooleanFieldPaths) (indexName (attributes reindexOp)) ;;
  let script :=
    match paths with
    | [] => None
    | _ :: _ => Some (mkScript "painless" paths)
    end in
  startReindex <- callCluster cluster
                    (reindex (indexName (attributes reindexOp))
                             (newIndexName (attributes reindexOp)) script) ;;
  actions.(updateReindexOp) reindexOp
    [lastCompletedStep_ ReindexStep.reindexStarted;
     reindexTaskId_ (Some startReindex);
     reindexTaskPercComplete_ (Some (Lit 0))].

Definition updateReindexStatus (reindexOp : ReindexSavedObject)
  : M ReindexSavedObject :=
  let taskId := reindexTaskId (attributes reindexOp) in
  taskResponse <- callCluster cluster (tasks_get taskId) ;;
  if completed taskResponse then
    if task_status_created taskResponse <? task_status_total taskResponse then
      match response_failures taskResponse with
      | None =>
          throw (newTypeError "Cannot read property 'failures' of undefined"
                              stackFrames)
      | Some failures =>
          let failureExample :=
            match failures with
            | f :: _ => JSON_stringify f
            | [] => "undefined"%string
            end in
          throw (Boom.badData
                   ("Reindexing failed with failures like: " ++ failureExample)
                   stackFrames)
      end
    else
      (* Delete the task from ES .tasks index *)
      deleteTaskResp <- callCluster cluster (delete_task taskId) ;;
      if negb (String.eqb deleteTaskResp "deleted") then
        throw (Boom.badImplementation
                 ("Could not delete reindexing task " ++ interpolate taskId)
                 stackFrames)
      else
        actions.(updateReindexOp) reindexOp
          [lastCompletedStep_ ReindexStep.reindexCompleted;
           reindexTaskPercComplete_ (Some (Lit 1))]
  else
    let perc := Quot (task_status_created taskResponse)
                     (task_status_total taskResponse) in
    actions.(updateReindexOp) reindexOp [reindexTaskPercComplete_ (Some perc)].

Definition switchAlias (reindexOp : ReindexSavedObject) : M ReindexSavedObject :=
  let name := indexName (attributes reindexOp) in
  let newName := newIndexName (attributes reindexOp) in
  response <- callCluster cluster (indices_getAlias name) ;;
  match response with
  | None =>
      throw (newTypeError "Cannot read property 'aliases' of undefined" stackFrames)
  | Some existingAliases =>
      let extraAlises :=
        map (fun '(aliasName, properties) => add newName aliasName properties)
            existingAliases in
      aliasResponse <- callCluster cluster
                         (indices_updateAliases
                            ([add newName name []; remove_index name]
                               ++ extraAlises)) ;;
      if negb (acknowledged aliasResponse) then
        throw (Boom.badImplementation "Index aliases could not be created."
                                      stackFrames)
      else
        actions.(updateReindexOp) reindexOp
          [lastCompletedStep_ ReindexStep.aliasCreated;
           (* Only set to completed if this is not an ML index. *)
           status_ (if actions.(isMlIndex) name then ReindexStatus.inProgress
                    else ReindexStatus.completed)]
  end.

Definition unsetMlUpgradeMode (reindexOp : ReindexSavedObject)
  : M ReindexSavedObject :=
  if negb (actions.(isMlIndex) (indexName (attributes reindexOp))) then
    actions.(updateReindexOp) reindexOp
      [lastCompletedStep_ ReindexStep.mlUpgradeModeUnset;
       status_ ReindexStatus.completed]
  else
    actions.(decrementMlReindexes) ;;
    actions.(runWhileMlLocked)
      (fun mlDoc =>
         if mlReindexCount mlDoc =? 0 then
           res <- callCluster cluster (ml_set_upgrade_mode false) ;;
           if negb (acknowledged res) then
             throw (newError "Could not resume ML jobs" stackFrames)
           else ret mlDoc
         else ret mlDoc) ;;
    actions.(updateReindexOp) reindexOp
      [lastCompletedStep_ ReindexStep.mlUpgradeModeUnset;
       status_ ReindexStatus.completed].

Definition createReindexOperation (name : string) : M ReindexSavedObject :=
  indexExists <- callCluster cluster (indices_exists name) ;;
  if negb indexExists then
    throw (Boom.notFound ("Index " ++ name ++ " does not exist in this cluster.")
                         stackFrames)
  else
    existingReindexOps <- actions.(findReindexOperations) name ;;
    match existingReindexOps with
    | [] => ret tt
    | existingOp :: _ =>
        if ReindexStatus.eqb (status (attributes existingOp)) ReindexStatus.failed
        then
          (* Delete the existing one if it failed to give a chance to retry. *)
          actions.(deleteReindexOp) existingOp
        else
          throw (Boom.badImplementation
                   ("A reindex operation already in-progress for " ++ name)
                   stackFrames)
    end ;;
    actions.(createReindexOp) name.

Definition findReindexOperation (name : string) : M (option ReindexSavedObject) :=
  findResponse <- actions.(findReindexOperations) name ;;
  match findResponse with
  | [] => ret None
  | [only] => ret (Some only)
  | _ :: _ :: _ =>
      throw (Boom.badImplementation
               ("More than one reindex operation found for " ++ name) stackFrames)
  end.

(** The step the state machine takes from each marker. *)
Definition nextStep (lockedReindexOp : ReindexSavedObject) : M ReindexSavedObject :=
  match lastCompletedStep (attributes lockedReindexOp) with
  | ReindexStep.created => setMlUpgradeMode lockedReindexOp
  | ReindexStep.mlUpgradeModeSet => setReadonly lockedReindexOp
  | ReindexStep.readonly => createNewIndex lockedReindexOp
  | ReindexStep.newIndexCreated => startReindexing lockedReindexOp
  | ReindexStep.reindexStarted => updateReindexStatus lockedReindexOp
  | ReindexStep.reindexCompleted => switchAlias lockedReindexOp
  | ReindexStep.aliasCreated => unsetMlUpgradeMode lockedReindexOp
  | ReindexStep.mlUpgradeModeUnset => ret lockedReindexOp
  end.

(** The handler of the [catch]: the message goes onto the record so the
    UI can display it, then the changes are cleaned up. *)
Definition trap (e : Thrown) (lockedReindexOp : ReindexSavedObject)
  : M ReindexSavedObject :=
  lockedReindexOp <- actions.(updateReindexOp) lockedReindexOp
                       [status_ ReindexStatus.failed;
                        errorMessage_ (Some (stackOrString e))] ;;
  actions.(cleanupChanges) (indexName (attributes lockedReindexOp)) ;;
  ret lockedReindexOp.

Definition processNextStep (reindexOp : ReindexSavedObject) : M ReindexSavedObject :=
  actions.(runWhileLocked) reindexOp
    (fun lockedReindexOp => tryCatch lockedReindexOp nextStep trap).

Definition pauseReindexOperation (name : string) : M ReindexSavedObject :=
  reindexOp <- findReindexOperation name ;;
  match reindexOp with
  | None => throw (newError ("No reindex operation found for index " ++ name)
                            stackFrames)
  | Some reindexOp =>
      actions.(runWhileLocked) reindexOp
        (fun op =>
           if negb (ReindexStatus.eqb (status (attributes op)) ReindexStatus.inProgress)
           then throw (newError
                         "Reindex operation must be inProgress in order to be paused."
                         stackFrames)
           else actions.(updateReindexOp) op [status_ ReindexStatus.paused])
  end.

Definition resumeReindexOperation (name : string) : M ReindexSavedObject :=
  reindexOp <- findReindexOperation name ;;
  match reindexOp with
  | None => throw (newError ("No reindex operation found for index " ++ name)
                            stackFrames)
  | Some reindexOp =>
      actions.(runWhileLocked) reindexOp
        (fun op =>
           if negb (ReindexStatus.eqb (status (attributes op)) ReindexStatus.paused)
           then throw (newError
                         "Reindex operation must be paused in order to be resumed."
                         stackFrames)
           else actions.(updateReindexOp) op [status_ ReindexStatus.inProgress])
  end.
End Factory.
End ReindexService.

(* ------------------------------------------------------------------ *)
(** ** The worker's constructor ([part_006]) *)

Module ReindexWorker.
(** An instance: its fields after the property initialisers, and the
    cluster client its service was built around. *)
Record t : Type := mkWorker {
  continuePolling : bool;
  updateOperationLoopRunning : bool;
  inProgressOps : list ReindexSavedObject;
  callWithInternalUser : Cluster
}.

(** The static side of the class. *)
Record Statics : Type := mkStatics { workerSingleton : option t }.

(** [new ReindexWorker(client, callWithInternalUser, log)]: the result,
    and the statics afterwards. *)
Definition constructor (cluster : Cluster) (stackFrames : string) (c : Statics)
  : (Thrown + t) * Statics :=
  let this := mkWorker false false [] cluster in
  match workerSingleton c with
  | Some _ =>
      (inl (newError "More than one ReindexWorker cannot be created." stackFrames), c)
  | None => (inr this, mkStatics (Some this))
  end.

(** [stop()] on an instance. *)
Definition stop (this : t) : t :=
  mkWorker false false (inProgressOps this) (callWithInternalUser this).

(** [includes(reindexOp)] *)
Definition includes (this : t) (reindexOp : ReindexSavedObject) : bool :=
  existsb (Nat.eqb (id reindexOp)) (map id (inProgressOps this)).

(** Any number of further constructions, one after the other. *)
Fixpoint construct_again (attempts : list (Cluster * string)) (c : Statics)
  : list (Thrown + t) * Statics :=
  match attempts with
  | [] => ([], c)
  | (cluster, fr) :: rest =>
      let '(r, c') := constructor cluster fr c in
      let '(rs, c'') := construct_again rest c' in
      (r :: rs, c'')
  end.
End ReindexWorker.

(* ------------------------------------------------------------------ *)
(* ------------------------------------------------------------------ *)
(** ** Notions the properties are stated with *)

(** The record in hand is the one the store holds, version included. *)
Definition current (o : ReindexSavedObject) (w : World) : Prop :=
  lookupObj (id o) (store w) = Some o.

(** The world once [o] has been written over the record of its id. *)
Definition commit (o : ReindexSavedObject) (w : World) : World :=
  setStore (replaceObj o (store w)) w.

(** The test of [acquireLock]: a lease is set and younger than the lock
    window at the time of the attempt. *)
Definition leaseHeld (o : ReindexSavedObject) (w : World) : bool :=
  match locked (attributes o) with
  | Some l => clock w - LOCK_WINDOW <? l
  | None => false
  end.

(** The instant [acquireLock] prints into [locked]. *)
Definition leaseStamp (o : ReindexSavedObject) (w : World) : Z :=
  match locked (attributes o) with
  | Some _ => Moment.format (clock w - LOCK_WINDOW)
  | None => Moment.format (clock w)
  end.

(** The record as [acquireLock], [updateReindexOp] and [releaseLock]
    write it when the store accepts the update. *)
Definition leased (o : ReindexSavedObject) (w : World) : ReindexSavedObject :=
  mkSO (id o) (version o + 1)
       (spread (attributes o) [locked_ (Some (leaseStamp o w))]).

Definition updated (o : ReindexSavedObject) (ms : list Member) (w : World)
  : ReindexSavedObject :=
  mkSO (id o) (version o + 1)
       (spread (attributes o) (locked_ (Some (Moment.format (clock w))) :: ms)).

Definition released (o : ReindexSavedObject) : ReindexSavedObject :=
  mkSO (id o) (version o + 1) (spread (attributes o) [locked_ None]).



(** [`${indexName}-reindex-${i}`] *)
Definition candidate (name : string) (i : nat) : string :=
  (name ++ "-reindex-" ++ decimal i)%string.

(** The cluster answers every existence check by [taken], whatever it
    was asked before. *)
Definition answersExistsBy (cluster : Cluster) (taken : string -> bool) : Prop :=
  forall log index, cluster log (indices_exists index) = inr (taken index).

(** What a step that returns has done to the attributes: one marker
    forward, or a poll of a task still running, or nothing at the
    terminal marker. *)
Definition stepped (cluster : Cluster) (w : World) (a a' : ReindexOperation)
  : Prop :=
  ReindexStep.position (lastCompletedStep a')
  = S (ReindexStep.position (lastCompletedStep a))
  \/ (lastCompletedStep a = ReindexStep.reindexStarted /\
      lastCompletedStep a' = lastCompletedStep a /\
      status a' = status a /\
      exists resp, cluster (trace w) (tasks_get (reindexTaskId a)) = inr resp /\
                   completed resp = false)
  \/ (lastCompletedStep a = ReindexStep.mlUpgradeModeUnset /\
      lastCompletedStep a' = lastCompletedStep a /\
      status a' = status a).

(** What a step leaves alone: the message, and the status unless it
    moves to completed or back to inProgress. *)
Definition keeps (a a' : ReindexOperation) : Prop :=
  errorMessage a' = errorMessage a /\
  indexName a' = indexName a /\
  (status a' = status a \/ status a' = ReindexStatus.completed
   \/ status a' = ReindexStatus.inProgress).

(** The record a trapped step leaves in the store before the release. *)
Definition failedWith (e : Thrown) (o : ReindexSavedObject) (w : World)
  : ReindexSavedObject :=
  updated o [status_ ReindexStatus.failed; errorMessage_ (Some (stackOrString e))] w.


(** The action list of [switchAlias]. *)
Definition aliasActions (name newName : string)
           (existingAliases : list (string * list (string * Json)))
  : list AliasAction :=
  [add newName name []; remove_index name]
    ++ map (fun '(aliasName, properties) => add newName aliasName properties)
           existingAliases.


(** The test of the ML counter's lease. *)
Definition mlLeaseHeld (w : World) : bool :=
  match mlLocked (mlDoc w) with
  | Some l => clock w - LOCK_WINDOW <? l
  | None => false
  end.

(** The record [createReindexOp] writes once a name is found. *)
Definition fresh (name newName : string) (w : World) : ReindexSavedObject :=
  mkSO (nextId w) 1
       (mkOp name newName ReindexStatus.inProgress ReindexStep.created
             None None None None).

(** The outcome of the creation that ends [createReindexOperation],
    started in [w1]: the fresh record is returned and appended to the
    store, unless no destination name could be generated. *)
Definition creates (cluster : Cluster) (stackFrames name : string) (w1 : World)
           (outcome : (Thrown + ReindexSavedObject) * World) : Prop :=
  match LegacyService.getNewIndexName cluster stackFrames name w1 with
  | (inr newName, _) =>
      fst outcome = inr (fresh name newName w1) /\
      store (snd outcome) = store w1 ++ [fresh name newName w1]
  | (inl e, _) => fst outcome = inl e /\ store (snd outcome) = store w1
  end.

(* ------------------------------------------------------------------ *)
(** ** Scenarios *)

(** A record for an index at a marker, as the store holds it. *)
Definition recordOf (name : string) (step : ReindexStep.t) (lock : option Z)
           (task : option string) : ReindexSavedObject :=
  mkSO 1 1
       (mkOp name (name ++ "-reindex-0") ReindexStatus.inProgress step lock task
             None None).

(** A world whose store holds that record alone, with no request made
    yet, at 2019-01-01T00:01:40Z. *)
Definition worldOf (o : ReindexSavedObject) (mlCount : Z) : World :=
  mkWorld [o] 2 (mkMl 1 mlCount None) [] 1546300900000.


(** A cluster given by what it answers to the task poll, to the delete of
    the task, to a settings update and to an existence check; it
    acknowledges everything else. *)
Definition scripted (task : TaskResponse) (deleted : string)
           (settings : Thrown + Acknowledged) (taken : string -> bool) : Cluster :=
  fun _ r =>
    match r as r0 return Thrown + Reply r0 with
    | indices_exists index => inr (taken index)
    | indices_putSettings _ _ => settings
    | indices_create _ _ _ => inr (mkAck true)
    | indices_getMapping _ => inr (Some [])
    | indices_getAlias _ =>
        inr (Some [("myAlias"%string, []);
                   ("myFilteredAlias"%string,
                    [("filter"%string,
                      JObj [("term"%string, JObj [("https"%string, JBool true)])])])])
    | indices_updateAliases _ => inr (mkAck true)
    | reindex _ _ _ => inr "abc123"%string
    | tasks_get _ => inr task
    | delete_task _ => inr deleted
    | get_flat_settings _ => inr (Some (mkFlat (JObj []) (JObj [])))
    | get_nodes => inr [mkNode "node-1" "6.7.0"]
    | ml_set_upgrade_mode _ => inr (mkAck true)
    end.

Definition running : TaskResponse := mkTask false 10 100 None.
Definition finished : TaskResponse := mkTask true 100 100 (Some []).
Definition shortOf (failures : list Json) : TaskResponse :=
  mkTask true 95 100 (Some failures).

Definition onlySource (index : string) : bool := String.eqb index "logs-2019".

(** Stand-ins for the collaborators the service is built around. *)
Definition atService : string := " at reindex_service.ts".
Definition keepSettings (fs : FlatSettings) : Json * Json :=
  (flat_settings fs, flat_mappings fs).
Definition noBooleans (_ : Json) : list (list string) := [].
Definition render (j : Json) : string :=
  match j with
  | JObj [(key, JStr value)] => ("{" ++ key ++ ":" ++ value ++ "}")%string
  | _ => "null"%string
  end.
Definition mlSystemIndex (name : string) : bool := String.prefix ".ml-" name.

(** The later service over a scripted cluster. *)
Definition serviceStep (cluster : Cluster) : ReindexSavedObject -> M ReindexSavedObject :=
  ReindexService.processNextStep
    cluster (Actions.reindexActionsFactory cluster atService noBooleans mlSystemIndex)
    atService keepSettings render.

Definition serviceCreate (cluster : Cluster) : string -> M ReindexSavedObject :=
  ReindexService.createReindexOperation
    cluster (Actions.reindexActionsFactory cluster atService noBooleans mlSystemIndex)
    atService.

(* ------------------------------------------------------------------ *)
(** ** The worker's wrapper around a step ([part_006]) *)

Definition LOG_TAGS : list string := ["upgrade_assistant"; "reindex_worker"]%string.

(** [e.toString()]: for an [Error] its name and message, for another
    value its rendering. *)
Definition toString (e : Thrown) : string :=
  match e with
  | ThrownError err =>
      if String.eqb (name err) "" then message err
      else if String.eqb (message err) "" then name err
           else (name err ++ ": " ++ message err)%string
  | ThrownValue rendering => rendering
  end.

(** [swallowExceptions(func, log)]: [log] is the server's logger, which
    takes the tags and the line and returns nothing. *)
Definition swallowExceptions
           (func : ReindexSavedObject -> M ReindexSavedObject)
           (log : list string -> string -> World -> World)
           (reindexOp : ReindexSavedObject) : M ReindexSavedObject :=
  fun w =>
    match func reindexOp w with
    | (inr done, w') => (inr done, w')
    | (inl e, w') =>
        match locked (attributes reindexOp) with
        | Some _ =>
            (inr reindexOp,
             log ("debug"%string :: LOG_TAGS)
                 ("Skipping reindexOp with unexpired lock: " ++ decimal (id reindexOp))%string
                 w')
        | None =>
            (inr reindexOp,
             log ("warning"%string :: LOG_TAGS)
                 ("Error when trying to process reindexOp (" ++ decimal (id reindexOp)
                    ++ "): " ++ toString e)%string
                 w')
        end
    end.

(* ------------------------------------------------------------------ *)
(** ** Notions for the further properties *)

(** Every character of a string is in a class. *)
Fixpoint allChars (p : ascii -> bool) (s : string) : bool :=
  match s with
  | EmptyString => true
  | String c rest => p c && allChars p rest
  end.

(** A non-empty run of characters of a class. *)
Definition runOf (p : ascii -> bool) (s : string) : Prop :=
  s <> EmptyString /\ allChars p s = true.

Definition startsWithDigit (s : string) : bool :=
  match s with
  | String c _ => VersionRegex.digit c
  | EmptyString => false
  end.

(** The test of [validateNodesMinimumVersion] on parsed numbers. *)
Definition meetsMinimum (minMajor minMinor major minor : Z) : bool :=
  (minMajor <? major) || ((major =? minMajor) && (minMinor <=? minor)).

(** [n] runs in a row, each on the record the run before returned, as
    the worker pushes one operation through the state machine. *)
Fixpoint drive (step : ReindexSavedObject -> M ReindexSavedObject) (n : nat)
         (reindexOp : ReindexSavedObject) : M ReindexSavedObject :=
  match n with
  | O => ret reindexOp
  | S k => bind (step reindexOp) (drive step k)
  end.

(** A cluster on which the reindex of [name] into [newName] goes
    through: every update is acknowledged, the source has settings, at
    most one mapping type and the aliases [aliases], the reindex is
    dispatched as [task], and the task is complete with nothing missing
    and can be deleted. *)
Record Cooperative (cluster : Cluster) (name newName task : string)
       (source : FlatSettings) (mappings : list (string * Json))
       (aliases : list (string * list (string * Json))) (poll : TaskResponse)
  : Prop := mkCooperative {
  coop_readonly :
    forall log, cluster log (indices_putSettings name true) = inr (mkAck true);
  coop_settings :
    forall log, cluster log (get_flat_settings name) = inr (Some source);
  coop_create :
    forall log s m, cluster log (indices_create newName s m) = inr (mkAck true);
  coop_mappings :
    forall log, cluster log (indices_getMapping name) = inr (Some mappings);
  coop_one_type : (List.length mappings <= 1)%nat;
  coop_reindex :
    forall log script, cluster log (reindex name newName script) = inr task;
  coop_poll :
    forall log, cluster log (tasks_get (Some task)) = inr poll;
  coop_complete : completed poll = true;
  coop_all_created : task_status_total poll <= task_status_created poll;
  coop_delete :
    forall log, cluster log (delete_task (Some task)) = inr "deleted"%string;
  coop_aliases :
    forall log, cluster log (indices_getAlias name) = inr (Some aliases);
  coop_switch :
    forall log actions, cluster log (indices_updateAliases actions) = inr (mkAck true)
}.

(** The boolean field paths [getBooleanFieldPaths] reads off a mapping
    response with at most one type: those of the mapping of that type,
    and none when there is no type or its mapping is missing. *)
Definition pathsOf (findBooleanFields : Json -> list (list string))
           (mappings : list (string * Json)) : list (list string) :=
  match mappings with
  | (_, mapping) :: _ =>
      if truthy mapping then findBooleanFields (member "properties" mapping) else []
  | [] => []
  end.

(** The script [startReindexing] attaches for these paths. *)
Definition scriptFor (paths : list (list string)) : option Script :=
  match paths with
  | [] => None
  | _ :: _ => Some (mkScript "painless" paths)
  end.

(** A node by its name and the numbers of its version, with what
    follows the patch number (as in [6.7.0-SNAPSHOT]). *)
Definition versionedNode (v : string * nat * nat * nat * string) : NodeInfo :=
  let '(nodeName, major, minor, patch, suffix) := v in
  mkNode nodeName
         (decimal major ++ "." ++ decimal minor ++ "." ++ decimal patch ++ suffix).

(** The major number is written without the digit zero, and the suffix
    does not go on with a digit. *)
Definition plainVersion (v : string * nat * nat * nat * string) : Prop :=
  let '(_, major, _, _, suffix) := v in
  allChars VersionRegex.nonzero_digit (decimal major) = true /\
  startsWithDigit suffix = false.

Definition meets (minMajor minMinor : Z) (v : string * nat * nat * nat * string)
  : bool :=
  let '(_, major, minor, _, _) := v in
  meetsMinimum minMajor minMinor (Z.of_nat major) (Z.of_nat minor).

(** The aliases the scripted cluster reports for every index. *)
Definition scriptedAliases : list (string * list (string * Json)) :=
  [("myAlias"%string, []);
   ("myFilteredAlias"%string,
    [("filter"%string,
      JObj [("term"%string, JObj [("https"%string, JBool true)])])])].

(** A cluster that reports the nodes [nodes] and answers everything else
    as [cluster] does. *)
Definition withNodes (nodes : list NodeInfo) (cluster : Cluster) : Cluster :=
  fun log r =>
    match r as r0 return Thrown + Reply r0 with
    | get_nodes => inr nodes
    | other => cluster log other
    end.

(** A cluster that answers the request for the ML upgrade mode by
    [reply] and everything else as [cluster] does. *)
Definition withUpgradeMode (reply : Thrown + Acknowledged) (cluster : Cluster)
  : Cluster :=
  fun log r =>
    match r as r0 return Thrown + Reply r0 with
    | ml_set_upgrade_mode _ => reply
    | other => cluster log other
    end.

(** A cluster that reports the mapping types [mappings] for every index
    and answers everything else as [cluster] does. *)
Definition withMappings (mappings : list (string * Json)) (cluster : Cluster)
  : Cluster :=
  fun log r =>
    match r as r0 return Thrown + Reply r0 with
    | indices_getMapping _ => inr (Some mappings)
    | other => cluster log other
    end.

(** A stand-in for [findBooleanFields] that finds one boolean field in
    whatever it is given. *)
Definition flagField (_ : Json) : list (list string) := [["flag"%string]].

Definition nothingTaken (_ : string) : bool := false.

(** A world with an empty store. *)
Definition emptyWorld : World := mkWorld [] 1 (mkMl 1 0 None) [] 1546300900000.

(** The attributes of a record that failed at a marker with a message. *)
Definition failsAt (step : ReindexStep.t) (text : string) (a : ReindexOperation)
  : Prop :=
  lastCompletedStep a = step /\
  status a = ReindexStatus.failed /\
  errorMessage a = Some text.

(** A logger that keeps nothing, for scenarios. *)
Definition quiet (_ : list string) (_ : string) (w : World) : World := w.

(* ------------------------------------------------------------------ *)
(** * Properties *)

(** ** The store *)

Lemma append_assoc (a b c : string) : ((a ++ b) ++ c = a ++ b ++ c)%string.
Proof. induction a as [|ch a IH]; simpl; [reflexivity | now rewrite IH]. Qed.

(** ** The stack of an error *)


(** The stack of an error with a name and a message. *)
Lemma stack_of_message a n status b m rest fr :
  stack (mkError (String a n) status (String b m ++ rest) fr)
  = (String a n ++ ": " ++ String b m ++ rest ++ fr)%string.
Proof.
  unfold stack, header. cbn [name message frames].
  change (String.eqb (String a n) "") with false.
  change (String.eqb (String b m ++ rest) "") with false.
  cbv iota. now rewrite !append_assoc.
Qed.

Lemma lookupObj_replace o st x :
  lookupObj (id o) st = Some x -> lookupObj (id o) (replaceObj o st) = Some o.
Proof.
  induction st as [|y rest IH]; simpl; [discriminate|].
  destruct (Nat.eqb (id y) (id o)) eqn:E; simpl.
  - now rewrite Nat.eqb_refl.
  - rewrite E. exact IH.
Qed.

Lemma current_commit o o' w :
  current o w -> id o' = id o -> current o' (commit o' w).
Proof.
  unfold current, commit. simpl. intros H E.
  apply lookupObj_replace with (x := o). now rewrite E.
Qed.

Lemma client_update_current o attrs w :
  current o w ->
  client.update (id o) attrs (version o) w
  = (inr (mkSO (id o) (version o + 1) attrs),
     commit (mkSO (id o) (version o + 1) attrs) w).
Proof.
  unfold current, client.update. intros ->. now rewrite Z.eqb_refl.
Qed.

(** ** The lease *)

Lemma acquireLock_held fr o w :
  leaseHeld o w = true ->
  LegacyService.acquireLock fr o w
  = (inl (Boom.conflict
            "Another Kibana process is currently modifying this reindex operation." fr),
     w).
Proof.
  unfold leaseHeld, LegacyService.acquireLock, bind, moment, Moment.subtract,
    Moment.parse.
  destruct (locked (attributes o)); [|discriminate].
  intros ->. reflexivity.
Qed.

Lemma acquireLock_free fr o w :
  current o w -> leaseHeld o w = false ->
  LegacyService.acquireLock fr o w = (inr (leased o w), commit (leased o w) w).
Proof.
  unfold leaseHeld, LegacyService.acquireLock, bind, moment, Moment.subtract,
    Moment.parse, leased, leaseStamp.
  intros Hc Hh.
  destruct (locked (attributes o)); [rewrite Hh|];
    now rewrite (client_update_current o _ w Hc).
Qed.

Lemma updateReindexOp_current o ms w :
  current o w ->
  LegacyService.updateReindexOp o ms w = (inr (updated o ms w), commit (updated o ms w) w).
Proof.
  unfold LegacyService.updateReindexOp, bind, moment, updated.
  intros Hc. now rewrite (client_update_current o _ w Hc).
Qed.

Lemma releaseLock_current o w :
  current o w ->
  LegacyService.releaseLock o w = (inr (released o), commit (released o) w).
Proof.
  unfold LegacyService.releaseLock, released.
  intros Hc. now rewrite (client_update_current o _ w Hc).
Qed.






Lemma current_logRequest o r w : current o w -> current o (logRequest r w).
Proof. exact (fun H => H). Qed.

Lemma current_setMlDoc o d w : current o w -> current o (setMlDoc d w).
Proof. exact (fun H => H). Qed.

Lemma trace_commit o w : trace (commit o w) = trace w.
Proof. reflexivity. Qed.
Lemma clock_commit o w : clock (commit o w) = clock w.
Proof. reflexivity. Qed.
Lemma mlDoc_commit o w : mlDoc (commit o w) = mlDoc w.
Proof. reflexivity. Qed.
Lemma trace_logRequest r w : trace (logRequest r w) = trace w ++ [r].
Proof. reflexivity. Qed.
Lemma clock_logRequest r w : clock (logRequest r w) = clock w.
Proof. reflexivity. Qed.
Lemma mlDoc_logRequest r w : mlDoc (logRequest r w) = mlDoc w.
Proof. reflexivity. Qed.
Lemma trace_setMlDoc d w : trace (setMlDoc d w) = trace w.
Proof. reflexivity. Qed.
Lemma clock_setMlDoc d w : clock (setMlDoc d w) = clock w.
Proof. reflexivity. Qed.
Lemma mlDoc_setMlDoc d w : mlDoc (setMlDoc d w) = d.
Proof. reflexivity. Qed.

Create Rewrite HintDb world.
#[local] Hint Rewrite trace_commit clock_commit mlDoc_commit
  trace_logRequest clock_logRequest mlDoc_logRequest
  trace_setMlDoc clock_setMlDoc mlDoc_setMlDoc : world.

Ltac solve_current :=
  match goal with
  | |- current _ _ => eassumption
  | |- current _ (logRequest _ _) => apply current_logRequest; solve_current
  | |- current _ (setMlDoc _ _) => apply current_setMlDoc; solve_current
  | |- current _ (commit _ _) =>
      eapply current_commit; [ solve_current | reflexivity ]
  end.


(** ** The ML counter *)

Lemma mlCounter_update_current d count lock w :
  mlDoc w = d ->
  mlCounter.update d count lock w
  = (inr (mkMl (mlVersion d + 1) count lock),
     setMlDoc (mkMl (mlVersion d + 1) count lock) w).
Proof.
  unfold mlCounter.update. intros ->. now rewrite Z.eqb_refl.
Qed.

(** The search for a destination name only talks to the cluster. *)
Lemma getNewIndexName_for_logs_only cluster fr name attempts range w :
  let w' := snd (LegacyService.getNewIndexName_for cluster fr name attempts range w) in
  store w' = store w /\ nextId w' = nextId w /\ mlDoc w' = mlDoc w.
Proof.
  revert w. induction range as [|i rest IH]; intros w; cbn; [auto|].
  unfold bind, callCluster. cbn.
  destruct (cluster (trace w) _) as [e|[|]]; cbn; auto.
  apply (IH (logRequest _ w)).
Qed.

Lemma getNewIndexName_for_cons cluster fr name attempts i rest :
  LegacyService.getNewIndexName_for cluster fr name attempts (i :: rest)
  = bind (callCluster cluster (indices_exists (candidate name i)))
         (fun taken =>
            if negb taken then ret (candidate name i)
            else LegacyService.getNewIndexName_for cluster fr name attempts rest).
Proof. reflexivity. Qed.

Lemma getNewIndexName_for_finds cluster fr name attempts taken :
  answersExistsBy cluster taken ->
  forall len k n w,
    (k <= n < k + len)%nat ->
    taken (candidate name n) = false ->
    (forall m, (k <= m < n)%nat -> taken (candidate name m) = true) ->
    exists w',
      LegacyService.getNewIndexName_for cluster fr name attempts (seq k len) w
      = (inr (candidate name n), w').
Proof.
  intros Hcl. induction len as [|len IH]; intros k n w Hn Hfree Hbelow; [lia|].
  cbn [seq]. rewrite getNewIndexName_for_cons. unfold bind, callCluster. rewrite Hcl.
  destruct (Nat.eq_dec k n) as [->|Hkn].
  - rewrite Hfree. cbn. eexists. reflexivity.
  - rewrite (Hbelow k) by lia. cbn [negb].
    apply IH; [lia | assumption | intros m Hm; apply Hbelow; lia].
Qed.

Lemma getNewIndexName_for_gives_up cluster fr name attempts taken :
  answersExistsBy cluster taken ->
  forall len k w,
    (forall m, (k <= m < k + len)%nat -> taken (candidate name m) = true) ->
    exists e w',
      LegacyService.getNewIndexName_for cluster fr name attempts (seq k len) w
      = (inl (ThrownError e), w') /\
      List.length (trace w') = (List.length (trace w) + len)%nat.
Proof.
  intros Hcl. induction len as [|len IH]; intros k w Hall.
  - cbn. unfold throw. eexists _, _. split; [reflexivity | lia].
  - cbn [seq]. rewrite getNewIndexName_for_cons. unfold bind, callCluster.
    rewrite Hcl, (Hall k) by lia. cbn [negb].
    destruct (IH (S k) (logRequest (indices_exists (candidate name k)) w))
      as (e & w' & Hrun & Hlen); [intros m Hm; apply Hall; lia|].
    exists e, w'. split; [exact Hrun|].
    rewrite Hlen. cbn. rewrite length_app. cbn. lia.
Qed.

Lemma getNewIndexName_logs_only cluster fr name w :
  let w' := snd (LegacyService.getNewIndexName cluster fr name w) in
  store w' = store w /\ nextId w' = nextId w /\ mlDoc w' = mlDoc w.
Proof. apply getNewIndexName_for_logs_only. Qed.

(** ** The lease of the self-contained service, freshly taken *)

(** X13: a lease taken on a free record excludes every other attempt
    until it expires.  The record is stamped with the time of the attempt
    cut to the whole second; an attempt made with the stamped record is
    refused with the conflict, writing nothing, as long as the clock is
    less than 90 seconds past the stamp, and goes through from 90 seconds
    past the stamp on. *)
Theorem fresh_lease_excludes_until_expiry fr o w :
  current o w ->
  locked (attributes o) = None ->
  exists o1 w1 stamp,
    LegacyService.acquireLock fr o w = (inr o1, w1) /\
    current o1 w1 /\
    locked (attributes o1) = Some stamp /\
    clock w - 1000 < stamp <= clock w /\
    stamp mod 1000 = 0 /\
    (forall w2,
        clock w2 < stamp + LOCK_WINDOW ->
        exists e, LegacyService.acquireLock fr o1 w2 = (inl e, w2) /\
                  Boom.statusOf e = Some 409) /\
    (forall w2,
        current o1 w2 ->
        stamp + LOCK_WINDOW <= clock w2 ->
        exists o2 w3, LegacyService.acquireLock fr o1 w2 = (inr o2, w3) /\
                      current o2 w3).
Proof.
  intros Hc Hfree.
  assert (Hl : leaseHeld o w = false) by (unfold leaseHeld; now rewrite Hfree).
  exists (leased o w), (commit (leased o w) w), (Moment.format (clock w)).
  split; [apply (acquireLock_free _ _ _ Hc Hl)|].
  split; [solve_current|].
  assert (Hstamp : locked (attributes (leased o w)) = Some (Moment.format (clock w))).
  { unfold leased, leaseStamp. rewrite Hfree. cbn. now destruct (attributes o). }
  split; [exact Hstamp|].
  split.
  { unfold Moment.format.
    pose proof (Z.div_mod (clock w) 1000 ltac:(lia)).
    pose proof (Z.mod_pos_bound (clock w) 1000 ltac:(lia)). lia. }
  split.
  { unfold Moment.format. rewrite Z.mul_comm. apply Z.mod_mul. lia. }
  split.
  - intros w2 Hearly.
    rewrite acquireLock_held; [eexists; split; reflexivity|].
    unfold leaseHeld. rewrite Hstamp. apply Z.ltb_lt. lia.
  - intros w2 Hc2 Hlate.
    rewrite acquireLock_free; [eexists _, _; split; [reflexivity | solve_current] | exact Hc2 |].
    unfold leaseHeld. rewrite Hstamp. apply Z.ltb_ge. lia.
Qed.

(** ** Version strings *)

Lemma span_run p run rest :
  allChars p run = true ->
  match rest with
  | String c _ => p c = false
  | EmptyString => True
  end ->
  VersionRegex.span p (run ++ rest) = (run, rest).
Proof.
  intros Hrun Hrest. induction run as [|c run IH].
  - destruct rest as [|c rest]; [reflexivity|].
    cbn [append VersionRegex.span]. now rewrite Hrest.
  - cbn [allChars] in Hrun. apply andb_prop in Hrun as (Hc & Hrun).
    cbn [append VersionRegex.span]. now rewrite Hc, (IH Hrun).
Qed.

Lemma allChars_digit_of_nonzero s :
  allChars VersionRegex.nonzero_digit s = true -> allChars VersionRegex.digit s = true.
Proof.
  induction s as [|c s IH]; cbn; [reflexivity|].
  intros H. apply andb_prop in H as (Hc & Hs). rewrite (IH Hs), andb_true_r.
  unfold VersionRegex.nonzero_digit, VersionRegex.digit in *.
  apply andb_prop in Hc as (Hlo & Hhi). rewrite Hhi, andb_true_r.
  apply Nat.leb_le in Hlo. apply Nat.leb_le. lia.
Qed.

Lemma string_of_uint_digits d :
  allChars VersionRegex.digit (NilEmpty.string_of_uint d) = true.
Proof. induction d; cbn; auto. Qed.

Lemma decimal_run n : runOf VersionRegex.digit (decimal n).
Proof.
  split; [|apply string_of_uint_digits].
  unfold decimal. intros Hempty.
  assert (Hnil : Nat.to_uint n = Decimal.Nil)
    by (destruct (Nat.to_uint n); cbn in Hempty; (reflexivity || discriminate)).
  pose proof (Unsigned.of_to n) as Hback. rewrite Hnil in Hback. cbn in Hback.
  subst n. discriminate Hnil.
Qed.

Lemma parseInt_from_uint d acc :
  VersionRegex.parseInt_from (Z.of_nat acc) (NilEmpty.string_of_uint d)
  = Z.of_nat (Nat.of_uint_acc d acc).
Proof.
  revert acc. induction d; intros acc; cbn [NilEmpty.string_of_uint Nat.of_uint_acc
                                            VersionRegex.parseInt_from];
    [reflexivity | ..];
    rewrite <- IHd; f_equal; rewrite Nat.tail_mul_spec;
    match goal with
    | |- context [Z.of_nat (nat_of_ascii ?c - 48)] =>
        let v := eval vm_compute in (Z.of_nat (nat_of_ascii c - 48)) in
        change (Z.of_nat (nat_of_ascii c - 48)) with v
    end; lia.
Qed.

Lemma parseInt_decimal n : VersionRegex.parseInt (decimal n) = Z.of_nat n.
Proof.
  unfold VersionRegex.parseInt, decimal.
  change 0 with (Z.of_nat 0). rewrite parseInt_from_uint.
  fold (Nat.of_uint (Nat.to_uint n)). now rewrite Unsigned.of_to.
Qed.

Lemma matches_version major minor patch suffix :
  runOf VersionRegex.nonzero_digit major ->
  runOf VersionRegex.digit minor ->
  runOf VersionRegex.digit patch ->
  startsWithDigit suffix = false ->
  VersionRegex.matches (major ++ "." ++ minor ++ "." ++ patch ++ suffix)
  = Some (major, minor, patch).
Proof.
  intros (Hmajor & Hma) (Hminor & Hmi) (Hpatch & Hpa) Hsuffix.
  unfold VersionRegex.matches.
  rewrite (span_run _ major _ Hma) by reflexivity.
  destruct major as [|c0 major]; [contradiction|]. cbn [VersionRegex.dot append].
  rewrite (span_run _ minor _ Hmi) by reflexivity.
  destruct minor as [|c1 minor]; [contradiction|]. cbn [VersionRegex.dot append].
  rewrite (span_run _ patch _ Hpa)
    by (destruct suffix; [exact I | exact Hsuffix]).
  destruct patch as [|c2 patch]; [contradiction | reflexivity].
Qed.

Lemma matches_zero_in_major run rest :
  allChars VersionRegex.nonzero_digit run = true ->
  VersionRegex.matches (run ++ "0" ++ rest) = None.
Proof.
  intros Hrun. unfold VersionRegex.matches.
  rewrite (span_run _ run _ Hrun) by reflexivity.
  destruct run; reflexivity.
Qed.

Lemma outdated_version minMajor minMinor v :
  plainVersion v ->
  ReindexService.outdated minMajor minMinor (versionedNode v)
  = Some (negb (meets minMajor minMinor v)).
Proof.
  destruct v as [[[[nodeName major] minor] patch] suffix]. intros (Hmajor & Hsuffix).
  unfold ReindexService.outdated, versionedNode, meets, meetsMinimum.
  cbn [node_version].
  rewrite matches_version;
    [ | split; [apply decimal_run | exact Hmajor] | apply decimal_run
      | apply decimal_run | exact Hsuffix ].
  now rewrite !parseInt_decimal.
Qed.

Lemma filterOutdated_versions minMajor minMinor versions :
  Forall plainVersion versions ->
  ReindexService.filterOutdated minMajor minMinor (map versionedNode versions)
  = Some (map versionedNode
              (filter (fun v => negb (meets minMajor minMinor v)) versions)).
Proof.
  induction 1 as [|v versions Hv _ IH]; [reflexivity|].
  cbn [map ReindexService.filterOutdated filter].
  rewrite (outdated_version _ _ _ Hv), IH.
  now destruct (meets minMajor minMinor v).
Qed.

Lemma filterOutdated_unmatched minMajor minMinor nodes node :
  In node nodes ->
  ReindexService.outdated minMajor minMinor node = None ->
  ReindexService.filterOutdated minMajor minMinor nodes = None.
Proof.
  intros Hin Hnone. induction nodes as [|n nodes IH]; [contradiction|].
  cbn [ReindexService.filterOutdated].
  destruct Hin as [-> | Hin]; [now rewrite Hnone|].
  destruct (ReindexService.outdated minMajor minMinor n); [|reflexivity].
  now rewrite (IH Hin).
Qed.

(** X1: when every node reports [major.minor.patch] (a suffix may
    follow) with a major number written without the digit zero, the check
    makes its one request and returns if every node is at or above the
    minimum, and throws a plain [Error] if some node is below it. *)
Theorem validateNodes_decides (cluster : Cluster) stackFrames JSON_stringify
        minMajor minMinor versions w :
  Forall plainVersion versions ->
  cluster (trace w) get_nodes = inr (map versionedNode versions) ->
  let outcome :=
    ReindexService.validateNodesMinimumVersion cluster stackFrames JSON_stringify
                                               minMajor minMinor w in
  snd outcome = logRequest get_nodes w /\
  if forallb (meets minMajor minMinor) versions then fst outcome = inr tt
  else exists e, fst outcome = inl (ThrownError e) /\ name e = "Error"%string.
Proof.
  intros Hplain Hreply outcome. subst outcome.
  unfold ReindexService.validateNodesMinimumVersion, bind, callCluster.
  rewrite Hreply, (filterOutdated_versions _ _ _ Hplain).
  assert (Hfilter :
            if forallb (meets minMajor minMinor) versions
            then filter (fun v => negb (meets minMajor minMinor v)) versions = []
            else exists v rest,
                filter (fun v => negb (meets minMajor minMinor v)) versions = v :: rest).
  { clear. induction versions as [|v versions IH]; [reflexivity|].
    cbn [forallb filter]. destruct (meets minMajor minMinor v); cbn [negb andb].
    - exact IH.
    - eexists _, _. reflexivity. }
  destruct (forallb (meets minMajor minMinor) versions).
  - rewrite Hfilter. split; reflexivity.
  - destruct Hfilter as (v & rest & ->). cbn [map].
    split; [reflexivity|]. eexists. split; reflexivity.
Qed.

(** X2: a node whose major number is written with the digit zero (as in
    [10.1.0]) is not matched by the version pattern, and the check throws
    a [TypeError] whatever the minimum is. *)
Theorem zero_in_major_version_throws (cluster : Cluster) stackFrames JSON_stringify
        minMajor minMinor nodes node run rest w :
  cluster (trace w) get_nodes = inr nodes ->
  In node nodes ->
  allChars VersionRegex.nonzero_digit run = true ->
  node_version node = (run ++ "0" ++ rest)%string ->
  exists e,
    ReindexService.validateNodesMinimumVersion cluster stackFrames JSON_stringify
                                               minMajor minMinor w
    = (inl (ThrownError e), logRequest get_nodes w) /\
    name e = "TypeError"%string.
Proof.
  intros Hreply Hin Hrun Hversion.
  unfold ReindexService.validateNodesMinimumVersion, bind, callCluster.
  rewrite Hreply.
  rewrite (filterOutdated_unmatched minMajor minMinor nodes node Hin).
  - eexists. split; reflexivity.
  - unfold ReindexService.outdated.
    now rewrite Hversion, (matches_zero_in_major _ _ Hrun).
Qed.

(** ** Searches of the store across updates *)

Lemma filter_replaceObj (p : ReindexSavedObject -> bool) o o' st :
  lookupObj (id o') st = Some o -> p o = true -> p o' = true ->
  filter p (replaceObj o' st) = replaceObj o' (filter p st).
Proof.
  intros Hfound Ho Ho'. induction st as [|x st IH]; [reflexivity|].
  cbn [lookupObj replaceObj filter] in *.
  destruct (Nat.eqb (id x) (id o')) eqn:E.
  - injection Hfound as ->. cbn [filter]. rewrite Ho, Ho'.
    cbn [replaceObj]. now rewrite E.
  - cbn [filter]. destruct (p x); [|now apply IH].
    cbn [replaceObj]. rewrite E. f_equal. now apply IH.
Qed.

Lemma find_commit (p : ReindexSavedObject -> bool) o o' w :
  current o w -> id o' = id o -> filter p (store w) = [o] -> p o' = p o ->
  filter p (store (commit o' w)) = [o'].
Proof.
  unfold current, commit. cbn [store setStore]. intros Hc Hid Hfind Hp.
  assert (Ho : p o = true).
  { assert (Hin : In o (filter p (store w))) by (rewrite Hfind; now left).
    now apply filter_In in Hin. }
  rewrite <- Hid in Hc.
  rewrite (filter_replaceObj p o o' _ Hc Ho) by congruence.
  rewrite Hfind. cbn [replaceObj]. now rewrite Hid, Nat.eqb_refl.
Qed.

Lemma lookupObj_unique st o :
  NoDup (map id st) -> In o st -> lookupObj (id o) st = Some o.
Proof.
  induction st as [|x st IH]; [contradiction|].
  cbn [map lookupObj]. intros Hnd [-> | Hin].
  - now rewrite Nat.eqb_refl.
  - inversion Hnd as [|? ? Hfresh Hrest]; subst.
    destruct (Nat.eqb (id x) (id o)) eqn:E; [|now apply IH].
    apply Nat.eqb_eq in E. exfalso. apply Hfresh. rewrite E. now apply in_map.
Qed.

Lemma filter_removeObj (p : ReindexSavedObject -> bool) o st :
  lookupObj (id o) st = Some o -> p o = true ->
  filter p (removeObj (id o) st) = removeObj (id o) (filter p st).
Proof.
  intros Hfound Ho. induction st as [|x st IH]; [reflexivity|].
  cbn [lookupObj removeObj filter] in *.
  destruct (Nat.eqb (id x) (id o)) eqn:E.
  - injection Hfound as ->. rewrite Ho. cbn [removeObj]. now rewrite E.
  - cbn [filter]. destruct (p x); [|now apply IH].
    cbn [removeObj]. rewrite E. f_equal. now apply IH.
Qed.

Arguments commit : simpl never.
Arguments LegacyService.getNewIndexName : simpl never.
Arguments LegacyService.getNewIndexName_for : simpl never.
Arguments LegacyService.updateReindexOp : simpl never.
Arguments LegacyService.acquireLock : simpl never.
Arguments LegacyService.releaseLock : simpl never.
Arguments mlCounter.update : simpl never.
Arguments stack : simpl never.
Arguments Moment.format : simpl never.
Arguments decimal : simpl never.
Arguments String.append : simpl never.
Arguments String.eqb : simpl never.
Arguments Z.add : simpl never.
Arguments Z.sub : simpl never.
Arguments Z.ltb : simpl never.
Arguments Z.eqb : simpl never.

Section Properties.
Variable cluster : Cluster.
Variable stackFrames : string.
Variable transformFlatSettings : FlatSettings -> Json * Json.
Variable findBooleanFields : Json -> list (list string).
Variable JSON_stringify : Json -> string.
Variable mlIndex : string -> bool.

Let actions :=
  Actions.reindexActionsFactory cluster stackFrames findBooleanFields mlIndex.
Let processNextStep :=
  ReindexService.processNextStep cluster actions stackFrames transformFlatSettings
                                 JSON_stringify.
Let nextStep :=
  ReindexService.nextStep cluster actions stackFrames transformFlatSettings
                          JSON_stringify.
Let trap := ReindexService.trap actions.

Ltac unfold_async :=
  unfold bind, ret, throw, tryCatch, tryFinally, swallow, callCluster, moment in *.

(** Symbolic execution of a run: replace every store access by its
    result and split on what the cluster answers. *)
Ltac exec_step :=
  first
    [ match goal with
      | H : cluster ?t ?r = _ |- context [cluster ?t ?r] => rewrite H
      end
    | rewrite updateReindexOp_current by solve_current
    | rewrite releaseLock_current by solve_current
    | rewrite mlCounter_update_current by reflexivity
    | match goal with
      | |- context [cluster ?t ?r] =>
          let E := fresh "Hreply" in destruct (cluster t r) eqn:E
      end
    | match goal with
      | |- context [if ?b then _ else _] =>
          let E := fresh "Htest" in destruct b eqn:E
      end
    | match goal with
      | |- context [match ?x with _ => _ end] =>
          lazymatch x with
          | context [match _ with _ => _ end] => fail
          | _ => let E := fresh "Hcase" in destruct x eqn:E
          end
      end ].

Ltac exec := repeat (cbn; autorewrite with world; try exec_step).

(** A run under a free lease is the step, trapped, then the release. *)
Lemma processNextStep_free op w :
  current op w -> leaseHeld op w = false ->
  processNextStep op w
  = tryFinally (leased op w) (fun o => tryCatch o nextStep trap)
               LegacyService.releaseLock (commit (leased op w) w).
Proof.
  intros Hc Hl.
  unfold processNextStep, ReindexService.processNextStep.
  cbn [runWhileLocked actions Actions.reindexActionsFactory].
  unfold Actions.runWhileLocked. unfold bind at 1.
  now rewrite (acquireLock_free _ _ _ Hc Hl).
Qed.

Lemma processNextStep_held op w :
  leaseHeld op w = true ->
  exists e, processNextStep op w = (inl e, w) /\ Boom.statusOf e = Some 409.
Proof.
  intros Hl.
  unfold processNextStep, ReindexService.processNextStep.
  cbn [runWhileLocked actions Actions.reindexActionsFactory].
  unfold Actions.runWhileLocked. unfold bind at 1.
  rewrite (acquireLock_held _ _ _ Hl). eexists. split; reflexivity.
Qed.

Lemma nextStep_outcome op w :
  current op w ->
  match nextStep op w with
  | (inr op', w') =>
      current op' w' /\ id op' = id op /\
      stepped cluster w (attributes op) (attributes op') /\
      keeps (attributes op) (attributes op')
  | (inl _, w') => current op w'
  end.
Proof.
  intros Hc.
  unfold nextStep, ReindexService.nextStep.
  destruct (lastCompletedStep (attributes op)) eqn:Hs;
    unfold ReindexService.setMlUpgradeMode, ReindexService.setReadonly,
      ReindexService.createNewIndex, ReindexService.startReindexing,
      ReindexService.updateReindexStatus, ReindexService.switchAlias,
      ReindexService.unsetMlUpgradeMode,
      ReindexService.validateNodesMinimumVersion;
    cbn [isMlIndex incrementMlReindexes decrementMlReindexes runWhileMlLocked
         updateReindexOp getFlatSettings getBooleanFieldPaths actions
         Actions.reindexActionsFactory];
    unfold Actions.incrementMlReindexes, Actions.decrementMlReindexes,
      Actions.runWhileMlLocked, Actions.acquireMlLock, Actions.releaseMlLock,
      Actions.getFlatSettings, LegacyService.getBooleanFieldPaths, mlCounter.get;
    unfold_async; exec.
  all: try solve_current.
  all: (split; [solve_current | split; [reflexivity|]]).
  all: (split; [| unfold keeps; cbn; auto]).
  all: unfold stepped; cbn; rewrite ?Hs.
  all: try (left; reflexivity).
  all: try (right; right; repeat split; reflexivity).
  all: right; left; repeat split; try reflexivity.
  all: eexists; split; [eassumption | assumption].
Qed.

Lemma run_returns op w op2 w2 :
  current op w -> leaseHeld op w = false ->
  nextStep (leased op w) (commit (leased op w) w) = (inr op2, w2) ->
  current op2 w2 ->
  processNextStep op w = (inr (released op2), commit (released op2) w2).
Proof.
  intros Hc Hl Hb Hc2.
  rewrite processNextStep_free by assumption.
  unfold tryFinally, tryCatch. rewrite Hb.
  now rewrite releaseLock_current by assumption.
Qed.

Lemma run_traps op w e w2 :
  current op w -> leaseHeld op w = false ->
  nextStep (leased op w) (commit (leased op w) w) = (inl e, w2) ->
  current (leased op w) w2 ->
  let o := failedWith e (leased op w) w2 in
  processNextStep op w
  = (inr (released o),
     commit (released o)
       (logRequest (indices_putSettings (indexName (attributes op)) false)
                   (commit o w2))).
Proof.
  intros Hc Hl Hb Hc2 o.
  rewrite processNextStep_free by assumption.
  unfold tryFinally, tryCatch. rewrite Hb.
  unfold trap, ReindexService.trap.
  cbn [updateReindexOp cleanupChanges actions Actions.reindexActionsFactory].
  unfold Actions.cleanupChanges. unfold_async.
  rewrite updateReindexOp_current by assumption.
  cbn. rewrite releaseLock_current by solve_current.
  reflexivity.
Qed.

(** C10: [processNextStep] never moves [lastCompletedStep] backwards.
    For a record as the store holds it, a refused lease writes nothing;
    otherwise the run returns the released record, whose marker is one
    position further when the step returned (or unchanged, when it
    polled a task still running or started from the terminal marker)
    and is the prior marker, with [status = failed], when the step
    threw and was trapped. *)
Theorem processNextStep_never_moves_back op w :
  current op w ->
  if leaseHeld op w then exists e, processNextStep op w = (inl e, w)
  else
    exists op' w',
      processNextStep op w = (inr op', w') /\ current op' w' /\
      (ReindexStep.position (lastCompletedStep (attributes op))
       <= ReindexStep.position (lastCompletedStep (attributes op')))%nat /\
      match nextStep (leased op w) (commit (leased op w) w) with
      | (inr _, _) => stepped cluster w (attributes op) (attributes op')
      | (inl _, _) =>
          lastCompletedStep (attributes op') = lastCompletedStep (attributes op) /\
          status (attributes op') = ReindexStatus.failed
      end.
Proof.
  intros Hc. destruct (leaseHeld op w) eqn:Hl.
  - destruct (processNextStep_held op w Hl) as (e & He & _). now exists e.
  - assert (Hc1 : current (leased op w) (commit (leased op w) w)) by solve_current.
    pose proof (nextStep_outcome _ _ Hc1) as Hout.
    destruct (nextStep (leased op w) (commit (leased op w) w)) as [[e|op2] w2] eqn:Hb.
    + eexists _, _. split; [apply (run_traps _ _ _ _ Hc Hl Hb Hout)|].
      split; [solve_current|]. cbn. auto.
    + destruct Hout as (Hc2 & _ & Hstep & _).
      eexists _, _. split; [apply (run_returns _ _ _ _ Hc Hl Hb Hc2)|].
      split; [solve_current|].
      assert (Hstep' : stepped cluster w (attributes op) (attributes (released op2))).
      { unfold stepped in *. cbn in *. exact Hstep. }
      split; [|exact Hstep'].
      destruct Hstep' as [H | [(_ & H & _) | (_ & H & _)]]; rewrite H; lia.
Qed.




Ltac unfold_steps :=
  unfold nextStep, ReindexService.nextStep,
    ReindexService.setMlUpgradeMode, ReindexService.setReadonly,
    ReindexService.createNewIndex, ReindexService.startReindexing,
    ReindexService.updateReindexStatus, ReindexService.switchAlias,
    ReindexService.unsetMlUpgradeMode,
    ReindexService.validateNodesMinimumVersion,
    trap, ReindexService.trap;
  cbn [isMlIndex incrementMlReindexes decrementMlReindexes runWhileMlLocked
       updateReindexOp getFlatSettings getBooleanFieldPaths cleanupChanges actions
       Actions.reindexActionsFactory];
  unfold Actions.incrementMlReindexes, Actions.decrementMlReindexes,
    Actions.runWhileMlLocked, Actions.acquireMlLock, Actions.releaseMlLock,
    Actions.getFlatSettings, Actions.cleanupChanges,
    LegacyService.getBooleanFieldPaths, mlCounter.get;
  unfold_async.

(** C4: a run on a record at [reindexStarted] whose task reports
    [completed = false] returns the released record with the marker and
    the status it had; of the attributes only [reindexTaskPercComplete]
    moves, to [created / total] of the task response (the lease, taken
    for the run, is cleared again), and the poll is the only request. *)
Theorem poll_of_running_task_keeps_marker op w resp :
  current op w ->
  leaseHeld op w = false ->
  lastCompletedStep (attributes op) = ReindexStep.reindexStarted ->
  cluster (trace w) (tasks_get (reindexTaskId (attributes op))) = inr resp ->
  completed resp = false ->
  exists op' w',
    processNextStep op w = (inr op', w') /\
    current op' w' /\
    lastCompletedStep (attributes op') = ReindexStep.reindexStarted /\
    status (attributes op') = status (attributes op) /\
    attributes op'
    = spread (attributes op)
        [reindexTaskPercComplete_
           (Some (Quot (task_status_created resp) (task_status_total resp)));
         locked_ None] /\
    trace w' = trace w ++ [tasks_get (reindexTaskId (attributes op))].
Proof.
  intros Hc Hl Hs Hr Hd.
  rewrite processNextStep_free by assumption.
  unfold_steps. cbn. rewrite Hs. autorewrite with world. rewrite Hr, Hd.
  exec.
  eexists _, _. split; [reflexivity|]. split; [solve_current|].
  cbn. rewrite ?Hs. repeat split; reflexivity.
Qed.

(** C3, as the code has it: on a record at [reindexStarted] whose task
    reports [completed = true], with [created < total] the step fails:
    the marker stays, [status] is [failed], and the message contains the
    first failure of the response when the response lists one; with
    [created >= total] the delete of the task from [.tasks] is issued,
    and the marker moves to [reindexCompleted] with
    [reindexTaskPercComplete = 1] when that delete reports [deleted];
    when it reports anything else or is rejected the step fails with the
    marker unchanged. *)
Theorem completed_task_step op w resp :
  current op w ->
  leaseHeld op w = false ->
  lastCompletedStep (attributes op) = ReindexStep.reindexStarted ->
  cluster (trace w) (tasks_get (reindexTaskId (attributes op))) = inr resp ->
  completed resp = true ->
  let taskId := reindexTaskId (attributes op) in
  exists op' w',
    processNextStep op w = (inr op', w') /\
    current op' w' /\
    (task_status_created resp < task_status_total resp ->
     lastCompletedStep (attributes op') = ReindexStep.reindexStarted /\
     status (attributes op') = ReindexStatus.failed /\
     forall f rest,
       response_failures resp = Some (f :: rest) ->
       exists before after,
         errorMessage (attributes op')
         = Some (before ++ JSON_stringify f ++ after)%string) /\
    (task_status_total resp <= task_status_created resp ->
     (exists rest, trace w' = trace w ++ tasks_get taskId :: delete_task taskId :: rest) /\
     match cluster (trace w ++ [tasks_get taskId]) (delete_task taskId) with
     | inr result =>
         if String.eqb result "deleted" then
           lastCompletedStep (attributes op') = ReindexStep.reindexCompleted /\
           reindexTaskPercComplete (attributes op') = Some (Lit 1) /\
           status (attributes op') = status (attributes op)
         else
           lastCompletedStep (attributes op') = ReindexStep.reindexStarted /\
           status (attributes op') = ReindexStatus.failed
     | inl _ =>
         lastCompletedStep (attributes op') = ReindexStep.reindexStarted /\
         status (attributes op') = ReindexStatus.failed
     end).
Proof.
  intros Hc Hl Hs Hr Hd taskId. subst taskId.
  rewrite processNextStep_free by assumption.
  unfold_steps. cbn. rewrite Hs. autorewrite with world. rewrite Hr, Hd.
  destruct (task_status_created resp <? task_status_total resp) eqn:Hlt.
  - apply Z.ltb_lt in Hlt.
    destruct (response_failures resp) as [[|f rest]|] eqn:Hf; exec.
    all: eexists _, _; split; [reflexivity|]; split; [solve_current|].
    all: split; [intros _ | intros Hge; lia].
    all: cbn; rewrite ?Hs; repeat split; try reflexivity.
    all: intros f' rest' [= <- <-] || intros f' rest' [=].
    all: exists ("Error: Reindexing failed with failures like: ")%string, stackFrames.
    all: reflexivity.
  - apply Z.ltb_ge in Hlt.
    destruct (cluster (trace w ++ [tasks_get (reindexTaskId (attributes op))])
                      (delete_task (reindexTaskId (attributes op))))
      as [e|result] eqn:Hdel; exec.
    all: eexists _, _; split; [reflexivity|]; split; [solve_current|].
    all: split; [intros Hlt'; lia | intros _].
    all: autorewrite with world; rewrite <- ?app_assoc; cbn.
    all: split; [eexists; reflexivity|].
    all: try (destruct (String.eqb result "deleted"); try discriminate).
    all: rewrite ?Hs; repeat split; reflexivity.
Qed.


(** C6: on a record at [aliasCreated], for an ML index the counter is
    decremented, and the ML endpoint is called with [enabled=false] if
    and only if the counter is zero after the decrement; when the step
    succeeds (no call was due, or the call was acknowledged) the status
    is [completed] and the marker [mlUpgradeModeUnset].  For an index
    that is not an ML index the counter is untouched, no request is made
    and the record is likewise [completed] at [mlUpgradeModeUnset]. *)
Theorem unsetMlUpgradeMode_step op w :
  current op w ->
  leaseHeld op w = false ->
  mlLeaseHeld w = false ->
  lastCompletedStep (attributes op) = ReindexStep.aliasCreated ->
  exists op' w' requests,
    processNextStep op w = (inr op', w') /\
    current op' w' /\
    trace w' = trace w ++ requests /\
    if mlIndex (indexName (attributes op)) then
      mlReindexCount (mlDoc w') = mlReindexCount (mlDoc w) - 1 /\
      (In (ml_set_upgrade_mode false) requests <->
       mlReindexCount (mlDoc w) - 1 = 0) /\
      (mlReindexCount (mlDoc w) - 1 <> 0 \/
       (exists ack, cluster (trace w) (ml_set_upgrade_mode false) = inr ack /\
                    acknowledged ack = true) ->
       status (attributes op') = ReindexStatus.completed /\
       lastCompletedStep (attributes op') = ReindexStep.mlUpgradeModeUnset)
    else
      mlDoc w' = mlDoc w /\ requests = [] /\
      status (attributes op') = ReindexStatus.completed /\
      lastCompletedStep (attributes op') = ReindexStep.mlUpgradeModeUnset.
Proof.
  intros Hc Hl Hml Hs. unfold mlLeaseHeld in Hml.
  rewrite processNextStep_free by assumption.
  unfold_steps. cbn. rewrite Hs. autorewrite with world. unfold LOCK_WINDOW in *.
  cbn in Hml.
  destruct (mlIndex (indexName (attributes op))) eqn:Hidx;
    cbn; autorewrite with world; rewrite ?Hml; exec.
  all: eexists _, _, _; split; [reflexivity|]; split; [solve_current|].
  all: autorewrite with world; rewrite <- ?app_assoc.
  all: split;
    [ match goal with
      | |- ?t = ?t ++ _ => symmetry; apply app_nil_r
      | _ => reflexivity
      end | ].
  all: cbn; autorewrite with world; cbn.
  all: repeat match goal with
         | H : (_ =? _) = true |- _ => apply Z.eqb_eq in H
         | H : (_ =? _) = false |- _ => apply Z.eqb_neq in H
         end.
  all: try (repeat split; reflexivity).
  all: split; [reflexivity|]; split.
  all: try (split; [ intros Hin; (assumption || (cbn in Hin; tauto))
                   | intros Hz; ((now left) || contradiction) ]).
  all: intros [Hne | (ack' & Hr' & Hk)]; try (split; reflexivity);
    try contradiction; try discriminate.
  all: injection Hr' as <-; rewrite Hk in *; discriminate.
Qed.

(** ** Creation *)

Let createReindexOperation :=
  ReindexService.createReindexOperation cluster actions stackFrames.
Let getNewIndexName := LegacyService.getNewIndexName cluster stackFrames.

Lemma lookupObj_filter_head (p : ReindexSavedObject -> bool) st o rest :
  filter p st = o :: rest -> exists x, lookupObj (id o) st = Some x.
Proof.
  induction st as [|y st IH]; cbn; [discriminate|].
  destruct (p y).
  - intros [= -> _]. rewrite Nat.eqb_refl. now exists o.
  - intros H. destruct (Nat.eqb (id y) (id o)); [now exists y | now apply IH].
Qed.

(** C2, as the code has it: [createReindexOperation] fails with
    NotFound (404) and an unchanged store when the cluster reports that
    the index does not exist; when the first operation found for the
    index has [status = failed] that record is deleted and the fresh
    record is created and returned; when it has any other status the
    call fails with a Boom [badImplementation] error (500, not the 409
    of a conflict) and the store is unchanged. *)
Theorem createReindexOperation_outcome name w :
  let outcome := createReindexOperation name w in
  match cluster (trace w) (indices_exists name) with
  | inl e => fst outcome = inl e /\ store (snd outcome) = store w
  | inr false =>
      exists e, fst outcome = inl e /\ Boom.statusOf e = Some 404 /\
                store (snd outcome) = store w
  | inr true =>
      match filter (fun o => String.eqb (indexName (attributes o)) name) (store w) with
      | [] => creates cluster stackFrames name (logRequest (indices_exists name) w) outcome
      | existingOp :: _ =>
          if ReindexStatus.eqb (status (attributes existingOp)) ReindexStatus.failed
          then
            creates cluster stackFrames name
              (setStore (removeObj (id existingOp) (store w))
                        (logRequest (indices_exists name) w)) outcome
          else
            exists e, fst outcome = inl e /\ Boom.statusOf e = Some 500 /\
                      store (snd outcome) = store w
      end
  end.
Proof.
  intros outcome. subst outcome.
  unfold createReindexOperation, ReindexService.createReindexOperation, creates.
  cbn [findReindexOperations deleteReindexOp createReindexOp actions
       Actions.reindexActionsFactory].
  unfold LegacyService.findReindexOperations, client.find, Actions.deleteReindexOp,
    client.delete, Actions.createReindexOp, client.create.
  unfold_async. cbn.
  destruct (cluster (trace w) (indices_exists name)) as [e|[|]] eqn:Hex; cbn;
    [auto | | eexists; repeat split].
  destruct (filter _ (store w)) as [|existingOp rest] eqn:Hfind; cbn.
  - pose proof (getNewIndexName_logs_only cluster stackFrames name
                  (logRequest (indices_exists name) w)) as (Hst & Hid & _).
    unfold getNewIndexName.
    destruct (LegacyService.getNewIndexName _ _ _ _) as [[e|newName] w2];
      cbn [fst snd] in *; [auto|].
    unfold fresh. cbn. rewrite Hst, Hid. auto.
  - destruct (ReindexStatus.eqb (status (attributes existingOp)) ReindexStatus.failed);
      cbn; [| eexists; repeat split].
    destruct (lookupObj_filter_head _ _ _ _ Hfind) as (x & ->). cbn.
    set (w1 := setStore _ _).
    pose proof (getNewIndexName_logs_only cluster stackFrames name w1)
      as (Hst & Hid & _).
    unfold getNewIndexName.
    destruct (LegacyService.getNewIndexName _ _ _ _) as [[e|newName] w2];
      cbn [fst snd] in *; [auto|].
    unfold fresh. cbn. rewrite Hst, Hid. auto.
Qed.

(** C8: when the cluster answers the existence checks by [taken], the
    name generated is [{indexName}-reindex-{n}] for the smallest [n]
    whose name is not taken, provided [n] is below 100, and it becomes
    the [newIndexName] of the record created; when the names for
    [n = 0 .. 99] are all taken, the generation throws an error after
    these 100 checks instead of returning a name, and so does the
    creation, which writes no record. *)
Theorem getNewIndexName_smallest_free name taken w :
  answersExistsBy cluster taken ->
  let noPrior :=
    filter (fun o => String.eqb (indexName (attributes o)) name) (store w) = [] in
  (forall n,
      (n < 100)%nat ->
      taken (candidate name n) = false ->
      (forall m, (m < n)%nat -> taken (candidate name m) = true) ->
      (exists w', getNewIndexName name w = (inr (candidate name n), w')) /\
      (noPrior ->
       exists r w',
         LegacyService.createReindexOperation cluster stackFrames name w = (inr r, w') /\
         newIndexName (attributes r) = candidate name n)) /\
  ((forall n, (n < 100)%nat -> taken (candidate name n) = true) ->
   (exists e w',
       getNewIndexName name w = (inl (ThrownError e), w') /\
       List.length (trace w') = (List.length (trace w) + 100)%nat) /\
   (noPrior ->
    exists e w',
      LegacyService.createReindexOperation cluster stackFrames name w
      = (inl (ThrownError e), w') /\
      store w' = store w)).
Proof.
  intros Hcl noPrior. subst noPrior. split.
  - intros n Hn Hfree Hbelow.
    assert (Hfind : forall w0, exists w',
               getNewIndexName name w0 = (inr (candidate name n), w')).
    { intros w0. unfold getNewIndexName, LegacyService.getNewIndexName.
      apply (getNewIndexName_for_finds cluster stackFrames name 100 taken Hcl);
        [lia | assumption | intros m Hm; apply Hbelow; lia]. }
    split; [apply Hfind|].
    intros Hnone.
    unfold LegacyService.createReindexOperation, LegacyService.findReindexOperations,
      client.find, client.create.
    unfold_async. cbn. rewrite Hnone.
    destruct (Hfind (logRequest (indices_exists name) w)) as (w' & Hrun).
    unfold getNewIndexName in Hrun. rewrite Hrun.
    eexists _, _. split; reflexivity.
  - intros Hall.
    assert (Hgive : forall w0, exists e w',
               getNewIndexName name w0 = (inl (ThrownError e), w') /\
               List.length (trace w') = (List.length (trace w0) + 100)%nat).
    { intros w0. unfold getNewIndexName, LegacyService.getNewIndexName.
      apply (getNewIndexName_for_gives_up cluster stackFrames name 100 taken Hcl).
      intros m Hm. apply Hall. lia. }
    split; [apply Hgive|].
    intros Hnone.
    unfold LegacyService.createReindexOperation, LegacyService.findReindexOperations,
      client.find, client.create.
    unfold_async. cbn. rewrite Hnone.
    destruct (Hgive (logRequest (indices_exists name) w)) as (e & w' & Hrun & _).
    pose proof (getNewIndexName_logs_only cluster stackFrames name
                  (logRequest (indices_exists name) w)) as (Hst & _).
    unfold getNewIndexName in Hrun. rewrite Hrun in Hst |- *.
    exists e, w'. split; [reflexivity | exact Hst].
Qed.

(** ** The self-contained service *)

(** X16: once the lease is taken, every path of the earlier
    [processNextStep] ends with the lease cleared, whether the step
    returned or threw. *)
Lemma legacy_processNextStep_releases op w :
  current op w -> leaseHeld op w = false ->
  exists op' w',
    LegacyService.processNextStep cluster stackFrames transformFlatSettings
      findBooleanFields JSON_stringify op w = (inr op', w') /\
    current op' w' /\ locked (attributes op') = None.
Proof.
  intros Hc Hl.
  unfold LegacyService.processNextStep. unfold bind at 1.
  rewrite (acquireLock_free _ _ _ Hc Hl).
  unfold LegacyService.setReadonly, LegacyService.createNewIndex,
    LegacyService.startReindexing, LegacyService.updateReindexStatus,
    LegacyService.switchAlias, LegacyService.getFlatSettings,
    LegacyService.getBooleanFieldPaths.
  unfold_async. exec.
  all: eexists _, _; split; [reflexivity|]; split; [solve_current | reflexivity].
Qed.

(** ** Further steps of the state machine *)

(** X3: on a record at [created], for an index that is not an ML index
    the run makes no request, leaves the counter alone and moves the
    marker to [mlUpgradeModeSet].  For an ML index the nodes are read
    first.  The upgrade mode is requested only when they were read and
    none of them is below 6.7, and the marker moves only when that
    request is acknowledged, with these two requests made.  In every
    other case (the nodes cannot be read, a version is not matched, a
    node is below 6.7, the request is rejected or is not acknowledged)
    the record fails at [created] with the message of that case, and
    the cleanup request follows. *)
Theorem setMlUpgradeMode_step op w :
  current op w ->
  leaseHeld op w = false ->
  mlLeaseHeld w = false ->
  lastCompletedStep (attributes op) = ReindexStep.created ->
  let name := indexName (attributes op) in
  let cleanup := indices_putSettings name false in
  exists op' w' requests,
    processNextStep op w = (inr op', w') /\
    current op' w' /\
    trace w' = trace w ++ requests /\
    if mlIndex name then
      match cluster (trace w) get_nodes with
      | inl e =>
          requests = [get_nodes; cleanup] /\
          failsAt ReindexStep.created (stackOrString e) (attributes op')
      | inr nodes =>
          match ReindexService.filterOutdated 6 7 nodes with
          | None =>
              requests = [get_nodes; cleanup] /\
              failsAt ReindexStep.created
                      ("TypeError: Cannot read property '1' of null" ++ stackFrames)
                      (attributes op')
          | Some (node :: more) =>
              requests = [get_nodes; cleanup] /\
              failsAt ReindexStep.created
                      ("Error: Some nodes are not on minimum version (6.7.0)  required: "
                         ++ JSON_stringify
                              (JArr (map (fun n => JStr (node_name n)) (node :: more)))
                         ++ stackFrames)
                      (attributes op')
          | Some [] =>
              match cluster (trace w ++ [get_nodes]) (ml_set_upgrade_mode true) with
              | inl e =>
                  requests = [get_nodes; ml_set_upgrade_mode true; cleanup] /\
                  failsAt ReindexStep.created (stackOrString e) (attributes op')
              | inr ack =>
                  if acknowledged ack then
                    requests = [get_nodes; ml_set_upgrade_mode true] /\
                    lastCompletedStep (attributes op') = ReindexStep.mlUpgradeModeSet /\
                    status (attributes op') = status (attributes op)
                  else
                    requests = [get_nodes; ml_set_upgrade_mode true; cleanup] /\
                    failsAt ReindexStep.created
                            ("Error: Could not stop ML jobs" ++ stackFrames)
                            (attributes op')
              end
          end
      end
    else
      requests = [] /\ mlDoc w' = mlDoc w /\
      lastCompletedStep (attributes op') = ReindexStep.mlUpgradeModeSet /\
      status (attributes op') = status (attributes op).
Proof.
  intros Hc Hl Hml Hs name cleanup. subst name cleanup. unfold mlLeaseHeld in Hml.
  rewrite processNextStep_free by assumption.
  unfold_steps. cbn. rewrite Hs. autorewrite with world. unfold LOCK_WINDOW in *.
  cbn in Hml.
  destruct (mlIndex (indexName (attributes op))) eqn:Hidx;
    cbn; autorewrite with world; rewrite ?Hml.
  1: destruct (cluster (trace w) get_nodes) as [e|nodes] eqn:Hnodes;
     [ | destruct (ReindexService.filterOutdated 6 7 nodes) as [[|node more]|] eqn:Hout;
         [ destruct (cluster (trace w ++ [get_nodes]) (ml_set_upgrade_mode true))
             as [e|ack] eqn:Hset; [ | destruct (acknowledged ack) eqn:Hack ]
         | | ] ].
  all: exec.
  all: try discriminate.
  all: try (rewrite Hack in *; discriminate).
  all: try match goal with
         | H : Some (_ :: _) = Some (_ :: _) |- _ => injection H as <- <-
         end.
  all: eexists _, _, _; split; [reflexivity|]; split; [solve_current|].
  all: autorewrite with world; rewrite <- ?app_assoc.
  all: split;
    [ match goal with
      | |- ?t = ?t ++ _ => symmetry; apply app_nil_r
      | _ => reflexivity
      end | ].
  all: unfold failsAt; cbn; autorewrite with world; cbn; rewrite ?Hs.
  all: repeat split; try reflexivity.
Qed.

(** X4: on a record at [mlUpgradeModeSet] the write block is requested
    on the source index.  When it is acknowledged nothing else is
    requested and the marker moves to [readonly]; when it is answered
    but not acknowledged, or rejected, the record fails at
    [mlUpgradeModeSet] with the message of the error, and the request
    that lifts the write block follows. *)
Theorem setReadonly_step op w :
  current op w ->
  leaseHeld op w = false ->
  lastCompletedStep (attributes op) = ReindexStep.mlUpgradeModeSet ->
  let name := indexName (attributes op) in
  exists op' w',
    processNextStep op w = (inr op', w') /\
    current op' w' /\
    match cluster (trace w) (indices_putSettings name true) with
    | inr ack =>
        if acknowledged ack then
          trace w' = trace w ++ [indices_putSettings name true] /\
          lastCompletedStep (attributes op') = ReindexStep.readonly /\
          status (attributes op') = status (attributes op)
        else
          trace w'
          = trace w ++ [indices_putSettings name true; indices_putSettings name false] /\
          lastCompletedStep (attributes op') = ReindexStep.mlUpgradeModeSet /\
          status (attributes op') = ReindexStatus.failed /\
          errorMessage (attributes op')
          = Some ("Error: Index could not be set to readonly." ++ stackFrames)%string
    | inl e =>
        trace w'
        = trace w ++ [indices_putSettings name true; indices_putSettings name false] /\
        lastCompletedStep (attributes op') = ReindexStep.mlUpgradeModeSet /\
        status (attributes op') = ReindexStatus.failed /\
        errorMessage (attributes op') = Some (stackOrString e)
    end.
Proof.
  intros Hc Hl Hs name. subst name.
  rewrite processNextStep_free by assumption.
  unfold_steps. cbn. rewrite Hs. autorewrite with world.
  destruct (cluster (trace w) (indices_putSettings (indexName (attributes op)) true))
    as [e|ack] eqn:Hput; [|destruct (acknowledged ack) eqn:Hack].
  all: exec.
  all: eexists _, _; split; [reflexivity|]; split; [solve_current|].
  all: autorewrite with world; rewrite <- ?app_assoc.
  all: cbn; rewrite ?Hs.
  all: repeat split; reflexivity.
Qed.

(** X5: on a record at [readonly], when the source index has no
    settings to read (it does not exist) or the read is rejected, no
    index is created: the only other request is the cleanup of the write
    block, and the record fails at [readonly], with the not-found message
    when the index does not exist.  Otherwise the new index is created
    under [newIndexName] with the settings and mappings
    [transformFlatSettings] gives, and the marker moves to
    [newIndexCreated] exactly when the creation is acknowledged. *)
Theorem createNewIndex_step op w :
  current op w ->
  leaseHeld op w = false ->
  lastCompletedStep (attributes op) = ReindexStep.readonly ->
  let name := indexName (attributes op) in
  let newName := newIndexName (attributes op) in
  exists op' w' requests,
    processNextStep op w = (inr op', w') /\
    current op' w' /\
    trace w' = trace w ++ requests /\
    match cluster (trace w) (get_flat_settings name) with
    | inr (Some flatSettings) =>
        let create :=
          indices_create newName (fst (transformFlatSettings flatSettings))
                         (snd (transformFlatSettings flatSettings)) in
        (exists rest, requests = get_flat_settings name :: create :: rest) /\
        match cluster (trace w ++ [get_flat_settings name]) create with
        | inr ack =>
            if acknowledged ack then
              requests = [get_flat_settings name; create] /\
              lastCompletedStep (attributes op') = ReindexStep.newIndexCreated /\
              status (attributes op') = status (attributes op)
            else
              lastCompletedStep (attributes op') = ReindexStep.readonly /\
              status (attributes op') = ReindexStatus.failed
        | inl _ =>
            lastCompletedStep (attributes op') = ReindexStep.readonly /\
            status (attributes op') = ReindexStatus.failed
        end
    | inr None =>
        requests = [get_flat_settings name; indices_putSettings name false] /\
        lastCompletedStep (attributes op') = ReindexStep.readonly /\
        status (attributes op') = ReindexStatus.failed /\
        errorMessage (attributes op')
        = Some ("Error: Index " ++ name ++ " does not exist." ++ stackFrames)%string
    | inl e =>
        requests = [get_flat_settings name; indices_putSettings name false] /\
        lastCompletedStep (attributes op') = ReindexStep.readonly /\
        status (attributes op') = ReindexStatus.failed /\
        errorMessage (attributes op') = Some (stackOrString e)
    end.
Proof.
  intros Hc Hl Hs name newName. subst name newName.
  rewrite processNextStep_free by assumption.
  unfold_steps. cbn. rewrite Hs. autorewrite with world.
  destruct (cluster (trace w) (get_flat_settings (indexName (attributes op))))
    as [e|[flatSettings|]] eqn:Hget; cbn; autorewrite with world.
  2: destruct (transformFlatSettings flatSettings) as [settings mappings] eqn:Ht;
     cbn; autorewrite with world;
     destruct (cluster (trace w ++ [get_flat_settings (indexName (attributes op))])
                       (indices_create (newIndexName (attributes op)) settings mappings))
       as [e|ack] eqn:Hcreate; [|destruct (acknowledged ack) eqn:Hack].
  all: exec.
  all: eexists _, _, _; split; [reflexivity|]; split; [solve_current|].
  all: autorewrite with world; rewrite <- ?app_assoc.
  all: split; [reflexivity|].
  all: cbn; rewrite ?Hs.
  all: try (split; [eexists; reflexivity|]).
  all: repeat split; try reflexivity.
  cbn. rewrite stack_of_message. now rewrite !append_assoc.
Qed.

(** X6: on a record at [newIndexCreated], when the source index has
    more than one mapping type, or its mappings cannot be read, no
    reindex is requested and the record fails at [newIndexCreated].
    Otherwise the reindex from [indexName] into [newIndexName] is
    requested, with the painless script over the boolean field paths of
    the one mapping when there are any, and with no script when there
    are none, as when the index has no type or the type has no mapping;
    once the cluster answers with the task, the record holds that task
    id and a completion of 0 at [reindexStarted]. *)
Theorem startReindexing_step op w :
  current op w ->
  leaseHeld op w = false ->
  lastCompletedStep (attributes op) = ReindexStep.newIndexCreated ->
  let name := indexName (attributes op) in
  let newName := newIndexName (attributes op) in
  exists op' w' requests,
    processNextStep op w = (inr op', w') /\
    current op' w' /\
    trace w' = trace w ++ requests /\
    match cluster (trace w) (indices_getMapping name) with
    | inr (Some mappings) =>
        if (1 <? List.length mappings)%nat then
          requests = [indices_getMapping name; indices_putSettings name false] /\
          lastCompletedStep (attributes op') = ReindexStep.newIndexCreated /\
          status (attributes op') = ReindexStatus.failed
        else
          let start :=
            reindex name newName (scriptFor (pathsOf findBooleanFields mappings)) in
          (exists rest, requests = indices_getMapping name :: start :: rest) /\
          forall task,
            cluster (trace w ++ [indices_getMapping name]) start = inr task ->
            requests = [indices_getMapping name; start] /\
            lastCompletedStep (attributes op') = ReindexStep.reindexStarted /\
            reindexTaskId (attributes op') = Some task /\
            reindexTaskPercComplete (attributes op') = Some (Lit 0) /\
            status (attributes op') = status (attributes op)
    | _ =>
        requests = [indices_getMapping name; indices_putSettings name false] /\
        lastCompletedStep (attributes op') = ReindexStep.newIndexCreated /\
        status (attributes op') = ReindexStatus.failed
    end.
Proof.
  intros Hc Hl Hs name newName. subst name newName.
  rewrite processNextStep_free by assumption.
  unfold_steps. cbn. rewrite Hs. autorewrite with world.
  destruct (cluster (trace w) (indices_getMapping (indexName (attributes op))))
    as [e|[mappings|]] eqn:Hget; cbn; autorewrite with world.
  2: unfold pathsOf, scriptFor;
     destruct mappings as [|[typeName mapping] [|another more]];
     cbn; autorewrite with world.
  all: exec.
  all: eexists _, _, _; split; [reflexivity|]; split; [solve_current|].
  all: autorewrite with world; rewrite <- ?app_assoc.
  all: split; [reflexivity|].
  all: cbn; rewrite ?Hs.
  all: try (split; [eexists; reflexivity|]).
  all: try (intros task [= <-] || (intros task Htask; discriminate)).
  all: repeat split; try reflexivity.
Qed.

(** ** A whole run *)

(** One run on a cooperative cluster, from each marker. *)
Lemma cooperative_step name newName task source mappings aliases poll op w :
  Cooperative cluster name newName task source mappings aliases poll ->
  mlIndex name = false ->
  current op w ->
  locked (attributes op) = None ->
  indexName (attributes op) = name ->
  newIndexName (attributes op) = newName ->
  (lastCompletedStep (attributes op) = ReindexStep.reindexStarted ->
   reindexTaskId (attributes op) = Some task) ->
  exists op' w',
    processNextStep op w = (inr op', w') /\
    current op' w' /\
    locked (attributes op') = None /\
    indexName (attributes op') = name /\
    newIndexName (attributes op') = newName /\
    match lastCompletedStep (attributes op) with
    | ReindexStep.created =>
        lastCompletedStep (attributes op') = ReindexStep.mlUpgradeModeSet /\
        trace w' = trace w
    | ReindexStep.mlUpgradeModeSet =>
        lastCompletedStep (attributes op') = ReindexStep.readonly /\
        trace w' = trace w ++ [indices_putSettings name true]
    | ReindexStep.readonly =>
        lastCompletedStep (attributes op') = ReindexStep.newIndexCreated /\
        trace w'
        = trace w ++ [get_flat_settings name;
                      indices_create newName (fst (transformFlatSettings source))
                                     (snd (transformFlatSettings source))]
    | ReindexStep.newIndexCreated =>
        lastCompletedStep (attributes op') = ReindexStep.reindexStarted /\
        reindexTaskId (attributes op') = Some task /\
        trace w'
        = trace w ++ [indices_getMapping name;
                      reindex name newName
                              (scriptFor (pathsOf findBooleanFields mappings))]
    | ReindexStep.reindexStarted =>
        lastCompletedStep (attributes op') = ReindexStep.reindexCompleted /\
        reindexTaskId (attributes op') = Some task /\
        reindexTaskPercComplete (attributes op') = Some (Lit 1) /\
        trace w' = trace w ++ [tasks_get (Some task); delete_task (Some task)]
    | ReindexStep.reindexCompleted =>
        lastCompletedStep (attributes op') = ReindexStep.aliasCreated /\
        status (attributes op') = ReindexStatus.completed /\
        reindexTaskId (attributes op') = reindexTaskId (attributes op) /\
        reindexTaskPercComplete (attributes op')
        = reindexTaskPercComplete (attributes op) /\
        trace w'
        = trace w ++ [indices_getAlias name;
                      indices_updateAliases (aliasActions name newName aliases)]
    | ReindexStep.aliasCreated =>
        lastCompletedStep (attributes op') = ReindexStep.mlUpgradeModeUnset /\
        status (attributes op') = ReindexStatus.completed /\
        trace w' = trace w
    | ReindexStep.mlUpgradeModeUnset =>
        attributes op' = attributes op /\ trace w' = trace w
    end.
Proof.
  intros Hcoop Hml Hc Hlock Hname Hnew Htask.
  assert (Hl : leaseHeld op w = false) by (unfold leaseHeld; now rewrite Hlock).
  assert (Hall : (task_status_created poll <? task_status_total poll) = false)
    by (apply Z.ltb_ge, (coop_all_created _ _ _ _ _ _ _ _ Hcoop)).
  pose proof (coop_one_type _ _ _ _ _ _ _ _ Hcoop) as Hone.
  rewrite processNextStep_free by assumption.
  unfold pathsOf, scriptFor.
  destruct mappings as [|[typeName mapping] [|another more]];
    [ | | cbn in Hone; lia ].
  all: destruct (lastCompletedStep (attributes op)) eqn:Hs;
    try specialize (Htask eq_refl);
    unfold_steps; cbn; rewrite Hs, ?Hname, ?Hnew, ?Hml; cbn;
    repeat (autorewrite with world;
            first [ rewrite (coop_readonly _ _ _ _ _ _ _ _ Hcoop)
                  | rewrite (coop_settings _ _ _ _ _ _ _ _ Hcoop)
                  | rewrite (coop_create _ _ _ _ _ _ _ _ Hcoop)
                  | rewrite (coop_mappings _ _ _ _ _ _ _ _ Hcoop)
                  | rewrite Htask, (coop_poll _ _ _ _ _ _ _ _ Hcoop)
                  | rewrite (coop_complete _ _ _ _ _ _ _ _ Hcoop), Hall
                  | rewrite (coop_delete _ _ _ _ _ _ _ _ Hcoop)
                  | rewrite (coop_aliases _ _ _ _ _ _ _ _ Hcoop)
                  | rewrite (coop_switch _ _ _ _ _ _ _ _ Hcoop)
                  | rewrite (coop_reindex _ _ _ _ _ _ _ _ Hcoop)
                  | rewrite String.eqb_refl
                  | match goal with
                    | |- context [transformFlatSettings ?fs] =>
                        destruct (transformFlatSettings fs)
                    | |- context [truthy ?m] => destruct (truthy m)
                    | |- context [match findBooleanFields ?j with _ => _ end] =>
                        destruct (findBooleanFields j)
                    end
                  | rewrite updateReindexOp_current by solve_current
                  | rewrite releaseLock_current by solve_current
                  | progress cbn ]).
  all: eexists _, _; split; [reflexivity|]; split; [solve_current|].
  all: autorewrite with world; rewrite <- ?app_assoc; cbn.
  all: repeat split; try reflexivity; try assumption.
  all: destruct op as [i v a]; destruct a; cbn in *; now subst.
Qed.

(** X7: on a cooperative cluster, six runs in a row take a fresh record
    of an index that is not an ML index from [created] to [aliasCreated]
    with [status = completed], the lease cleared, the task recorded and
    its completion at 1; the requests made are, in this order, the write
    block, the read of the settings, the creation of the new index, the
    read of the mappings, the reindex, the poll, the delete of the task,
    the read of the aliases and the alias update. *)
Theorem cooperative_run_completes name newName task source mappings aliases poll
        op w :
  Cooperative cluster name newName task source mappings aliases poll ->
  mlIndex name = false ->
  current op w ->
  locked (attributes op) = None ->
  indexName (attributes op) = name ->
  newIndexName (attributes op) = newName ->
  lastCompletedStep (attributes op) = ReindexStep.created ->
  exists op' w',
    drive processNextStep 6 op w = (inr op', w') /\
    current op' w' /\
    status (attributes op') = ReindexStatus.completed /\
    lastCompletedStep (attributes op') = ReindexStep.aliasCreated /\
    locked (attributes op') = None /\
    reindexTaskId (attributes op') = Some task /\
    reindexTaskPercComplete (attributes op') = Some (Lit 1) /\
    trace w'
    = trace w ++ [indices_putSettings name true;
                  get_flat_settings name;
                  indices_create newName (fst (transformFlatSettings source))
                                 (snd (transformFlatSettings source));
                  indices_getMapping name;
                  reindex name newName
                          (scriptFor (pathsOf findBooleanFields mappings));
                  tasks_get (Some task);
                  delete_task (Some task);
                  indices_getAlias name;
                  indices_updateAliases (aliasActions name newName aliases)].
Proof.
  intros Hcoop Hml Hc0 Hk0 Hn0 Hm0 Hs0.
  cbn [drive]. unfold bind, ret.
  destruct (cooperative_step _ _ _ _ _ _ _ op w Hcoop Hml Hc0 Hk0 Hn0 Hm0)
    as (op1 & w1 & -> & Hc1 & Hk1 & Hn1 & Hm1 & Hstep);
    [intros E; rewrite Hs0 in E; discriminate|].
  rewrite Hs0 in Hstep. destruct Hstep as (Hs1 & Ht1).
  destruct (cooperative_step _ _ _ _ _ _ _ op1 w1 Hcoop Hml Hc1 Hk1 Hn1 Hm1)
    as (op2 & w2 & -> & Hc2 & Hk2 & Hn2 & Hm2 & Hstep);
    [intros E; rewrite Hs1 in E; discriminate|].
  rewrite Hs1 in Hstep. destruct Hstep as (Hs2 & Ht2).
  destruct (cooperative_step _ _ _ _ _ _ _ op2 w2 Hcoop Hml Hc2 Hk2 Hn2 Hm2)
    as (op3 & w3 & -> & Hc3 & Hk3 & Hn3 & Hm3 & Hstep);
    [intros E; rewrite Hs2 in E; discriminate|].
  rewrite Hs2 in Hstep. destruct Hstep as (Hs3 & Ht3).
  destruct (cooperative_step _ _ _ _ _ _ _ op3 w3 Hcoop Hml Hc3 Hk3 Hn3 Hm3)
    as (op4 & w4 & -> & Hc4 & Hk4 & Hn4 & Hm4 & Hstep);
    [intros E; rewrite Hs3 in E; discriminate|].
  rewrite Hs3 in Hstep. destruct Hstep as (Hs4 & Hid4 & Ht4).
  destruct (cooperative_step _ _ _ _ _ _ _ op4 w4 Hcoop Hml Hc4 Hk4 Hn4 Hm4)
    as (op5 & w5 & -> & Hc5 & Hk5 & Hn5 & Hm5 & Hstep);
    [intros _; exact Hid4|].
  rewrite Hs4 in Hstep. destruct Hstep as (Hs5 & Hid5 & Hperc5 & Ht5).
  destruct (cooperative_step _ _ _ _ _ _ _ op5 w5 Hcoop Hml Hc5 Hk5 Hn5 Hm5)
    as (op6 & w6 & -> & Hc6 & Hk6 & Hn6 & Hm6 & Hstep);
    [intros E; rewrite Hs5 in E; discriminate|].
  rewrite Hs5 in Hstep. destruct Hstep as (Hs6 & Hst6 & Hid6 & Hperc6 & Ht6).
  exists op6, w6. split; [reflexivity|].
  repeat (split; [first [assumption | congruence]|]).
  rewrite Ht6, Ht5, Ht4, Ht3, Ht2, Ht1, <- !app_assoc. reflexivity.
Qed.

(** ** Pausing and resuming *)

Let pauseReindexOperation :=
  ReindexService.pauseReindexOperation actions stackFrames.
Let resumeReindexOperation :=
  ReindexService.resumeReindexOperation actions stackFrames.

(** X8: pausing the one operation of an index that is in progress and
    then resuming it gives back the attributes it had, with the lease
    cleared: the pause stores [status = paused] and leaves the marker
    alone, the resume stores [status = inProgress] again, and neither
    makes a request to the cluster. *)
Theorem pause_then_resume name op w :
  current op w ->
  filter (fun o => String.eqb (indexName (attributes o)) name) (store w) = [op] ->
  leaseHeld op w = false ->
  status (attributes op) = ReindexStatus.inProgress ->
  exists paused w1 resumed w2,
    pauseReindexOperation name w = (inr paused, w1) /\
    current paused w1 /\
    status (attributes paused) = ReindexStatus.paused /\
    lastCompletedStep (attributes paused) = lastCompletedStep (attributes op) /\
    resumeReindexOperation name w1 = (inr resumed, w2) /\
    current resumed w2 /\
    attributes resumed = spread (attributes op) [locked_ None] /\
    trace w2 = trace w.
Proof.
  intros Hc Hfind Hl Hst.
  set (p := fun o => String.eqb (indexName (attributes o)) name) in *.
  set (o1 := leased op w). set (w1 := commit o1 w).
  set (o2 := updated o1 [status_ ReindexStatus.paused] w1). set (w2 := commit o2 w1).
  set (o3 := released o2). set (w3 := commit o3 w2).
  assert (Hc1 : current o1 w1) by (subst w1; solve_current).
  assert (Hc2 : current o2 w2) by (subst w2; solve_current).
  assert (Hc3 : current o3 w3) by (subst w3; solve_current).
  assert (Hf1 : filter p (store w1) = [o1])
    by (apply (find_commit p op); auto).
  assert (Hf2 : filter p (store w2) = [o2])
    by (apply (find_commit p o1); auto).
  assert (Hf3 : filter p (store w3) = [o3])
    by (apply (find_commit p o2); auto).
  assert (Hpause : pauseReindexOperation name w = (inr o3, w3)).
  { unfold pauseReindexOperation, ReindexService.pauseReindexOperation,
      ReindexService.findReindexOperation.
    cbn [findReindexOperations runWhileLocked updateReindexOp actions
         Actions.reindexActionsFactory].
    unfold LegacyService.findReindexOperations, client.find, Actions.runWhileLocked.
    unfold_async. fold p. rewrite Hfind.
    rewrite (acquireLock_free _ _ _ Hc Hl). fold o1 w1.
    replace (status (attributes o1)) with ReindexStatus.inProgress
      by (symmetry; exact Hst).
    cbn [ReindexStatus.eqb negb].
    rewrite (updateReindexOp_current _ _ _ Hc1). fold o2 w2.
    now rewrite (releaseLock_current _ _ Hc2). }
  set (o4 := leased o3 w3). set (w4 := commit o4 w3).
  set (o5 := updated o4 [status_ ReindexStatus.inProgress] w4).
  set (w5 := commit o5 w4).
  assert (Hl3 : leaseHeld o3 w3 = false) by reflexivity.
  assert (Hc4 : current o4 w4) by (subst w4; solve_current).
  assert (Hc5 : current o5 w5) by (subst w5; solve_current).
  exists o3, w3, (released o5), (commit (released o5) w5).
  split; [exact Hpause|]. split; [exact Hc3|].
  split; [reflexivity|]. split; [reflexivity|].
  split.
  { unfold resumeReindexOperation, ReindexService.resumeReindexOperation,
      ReindexService.findReindexOperation.
    cbn [findReindexOperations runWhileLocked updateReindexOp actions
         Actions.reindexActionsFactory].
    unfold LegacyService.findReindexOperations, client.find, Actions.runWhileLocked.
    unfold_async. fold p. rewrite Hf3.
    rewrite (acquireLock_free _ _ _ Hc3 Hl3). fold o4 w4.
    replace (status (attributes o4)) with ReindexStatus.paused by reflexivity.
    cbn [ReindexStatus.eqb negb].
    rewrite (updateReindexOp_current _ _ _ Hc4). fold o5 w5.
    now rewrite (releaseLock_current _ _ Hc5). }
  split; [solve_current|].
  split; [|reflexivity].
  cbn. rewrite <- Hst. now destruct (attributes op).
Qed.

(** X9: what [pauseReindexOperation] does, on a store whose records have
    distinct ids, by the operations found for the index.  With none it
    throws a plain [Error] naming the index, with more than one a Boom
    error 500, and nothing is written.  With one whose lease is held it
    throws the conflict of the lease and writes nothing.  With one whose
    lease is free, it stores [status = paused] when the status was
    [inProgress] and otherwise throws and leaves every attribute but the
    lease, which is cleared.  No request goes to the cluster. *)
Theorem pauseReindexOperation_outcome name w :
  NoDup (map id (store w)) ->
  match filter (fun o => String.eqb (indexName (attributes o)) name) (store w) with
  | [] =>
      exists e,
        pauseReindexOperation name w = (inl (ThrownError e), w) /\
        statusCode e = None /\
        message e = ("No reindex operation found for index " ++ name)%string
  | [op] =>
      if leaseHeld op w then
        exists e, pauseReindexOperation name w = (inl e, w) /\
                  Boom.statusOf e = Some 409
      else if ReindexStatus.eqb (status (attributes op)) ReindexStatus.inProgress then
        exists paused w',
          pauseReindexOperation name w = (inr paused, w') /\
          current paused w' /\
          attributes paused
          = spread (attributes op) [status_ ReindexStatus.paused; locked_ None] /\
          trace w' = trace w
      else
        exists e left w',
          pauseReindexOperation name w = (inl (ThrownError e), w') /\
          message e = "Reindex operation must be inProgress in order to be paused."%string /\
          current left w' /\
          attributes left = spread (attributes op) [locked_ None] /\
          trace w' = trace w
  | _ :: _ :: _ =>
      exists e, pauseReindexOperation name w = (inl e, w) /\
                Boom.statusOf e = Some 500
  end.
Proof.
  intros Hnd.
  unfold pauseReindexOperation, ReindexService.pauseReindexOperation,
    ReindexService.findReindexOperation.
  cbn [findReindexOperations runWhileLocked updateReindexOp actions
       Actions.reindexActionsFactory].
  unfold LegacyService.findReindexOperations, client.find, Actions.runWhileLocked.
  unfold_async.
  destruct (filter _ (store w)) as [|op [|op2 rest]] eqn:Hfind;
    [ eexists; repeat split | | eexists; split; reflexivity ].
  assert (Hc : current op w).
  { apply lookupObj_unique; [exact Hnd|].
    assert (Hin : In op (filter (fun o => String.eqb (indexName (attributes o)) name)
                                (store w))) by (rewrite Hfind; now left).
    now apply filter_In in Hin. }
  destruct (leaseHeld op w) eqn:Hl.
  - rewrite (acquireLock_held _ _ _ Hl). eexists. split; reflexivity.
  - rewrite (acquireLock_free _ _ _ Hc Hl).
    replace (status (attributes (leased op w))) with (status (attributes op))
      by reflexivity.
    destruct (ReindexStatus.eqb (status (attributes op)) ReindexStatus.inProgress);
      cbn [negb].
    + rewrite updateReindexOp_current by solve_current.
      rewrite releaseLock_current by solve_current.
      eexists _, _. split; [reflexivity|]. split; [solve_current|].
      split; [|reflexivity]. cbn. now destruct (attributes op).
    + rewrite releaseLock_current by solve_current.
      eexists _, _, _. split; [reflexivity|]. split; [reflexivity|].
      split; [solve_current|]. split; [|reflexivity]. cbn.
      now destruct (attributes op).
Qed.

(** X10: [resumeReindexOperation] on the one operation of an index, its
    lease free: it stores [status = inProgress] exactly when the status
    was [paused]; on any other status it throws, and the record keeps its
    status and its marker. *)
Theorem resumeReindexOperation_outcome name op w :
  current op w ->
  filter (fun o => String.eqb (indexName (attributes o)) name) (store w) = [op] ->
  leaseHeld op w = false ->
  if ReindexStatus.eqb (status (attributes op)) ReindexStatus.paused then
    exists resumed w',
      resumeReindexOperation name w = (inr resumed, w') /\
      current resumed w' /\
      attributes resumed
      = spread (attributes op) [status_ ReindexStatus.inProgress; locked_ None]
  else
    exists e left w',
      resumeReindexOperation name w = (inl (ThrownError e), w') /\
      message e = "Reindex operation must be paused in order to be resumed."%string /\
      current left w' /\
      attributes left = spread (attributes op) [locked_ None].
Proof.
  intros Hc Hfind Hl.
  unfold resumeReindexOperation, ReindexService.resumeReindexOperation,
    ReindexService.findReindexOperation.
  cbn [findReindexOperations runWhileLocked updateReindexOp actions
       Actions.reindexActionsFactory].
  unfold LegacyService.findReindexOperations, client.find, Actions.runWhileLocked.
  unfold_async. rewrite Hfind.
  rewrite (acquireLock_free _ _ _ Hc Hl).
  replace (status (attributes (leased op w))) with (status (attributes op))
    by reflexivity.
  destruct (ReindexStatus.eqb (status (attributes op)) ReindexStatus.paused);
    cbn [negb].
  - rewrite updateReindexOp_current by solve_current.
    rewrite releaseLock_current by solve_current.
    eexists _, _. split; [reflexivity|]. split; [solve_current|].
    cbn. now destruct (attributes op).
  - rewrite releaseLock_current by solve_current.
    eexists _, _, _. split; [reflexivity|]. split; [reflexivity|].
    split; [solve_current|]. cbn. now destruct (attributes op).
Qed.

(** ** The worker's wrapper *)

(** X11: the worker's wrapper around a run, on a record as the store
    holds it.  When the lease is held the conflict is swallowed: the
    wrapper resolves to the record it was given, writes nothing and logs
    one debug line naming the record.  When the lease is free the run
    itself returns, so the wrapper returns what the run returns and logs
    nothing. *)
Theorem swallowExceptions_of_run log op w :
  current op w ->
  if leaseHeld op w then
    swallowExceptions processNextStep log op w
    = (inr op,
       log ("debug" :: LOG_TAGS)%string
           ("Skipping reindexOp with unexpired lock: " ++ decimal (id op))%string w)
  else
    exists op' w',
      processNextStep op w = (inr op', w') /\
      swallowExceptions processNextStep log op w = (inr op', w').
Proof.
  intros Hc. unfold swallowExceptions. destruct (leaseHeld op w) eqn:Hl.
  - destruct (processNextStep_held op w Hl) as (e & -> & _).
    unfold leaseHeld in Hl. now destruct (locked (attributes op)).
  - assert (Hc1 : current (leased op w) (commit (leased op w) w)) by solve_current.
    pose proof (nextStep_outcome _ _ Hc1) as Hout.
    destruct (nextStep (leased op w) (commit (leased op w) w)) as [[e|op2] w2] eqn:Hb.
    + rewrite (run_traps _ _ _ _ Hc Hl Hb Hout). eexists _, _. split; reflexivity.
    + destruct Hout as (Hc2 & _).
      rewrite (run_returns _ _ _ _ Hc Hl Hb Hc2). eexists _, _. split; reflexivity.
Qed.

(** ** Retrying *)

(** A step that throws has written nothing to the store. *)
Lemma nextStep_throw_keeps_store op w :
  current op w ->
  match nextStep op w with
  | (inl _, w') => store w' = store w
  | (inr _, _) => True
  end.
Proof.
  intros Hc.
  unfold nextStep, ReindexService.nextStep.
  destruct (lastCompletedStep (attributes op)) eqn:Hs;
    unfold ReindexService.setMlUpgradeMode, ReindexService.setReadonly,
      ReindexService.createNewIndex, ReindexService.startReindexing,
      ReindexService.updateReindexStatus, ReindexService.switchAlias,
      ReindexService.unsetMlUpgradeMode,
      ReindexService.validateNodesMinimumVersion;
    cbn [isMlIndex incrementMlReindexes decrementMlReindexes runWhileMlLocked
         updateReindexOp getFlatSettings getBooleanFieldPaths actions
         Actions.reindexActionsFactory];
    unfold Actions.incrementMlReindexes, Actions.decrementMlReindexes,
      Actions.runWhileMlLocked, Actions.acquireMlLock, Actions.releaseMlLock,
      Actions.getFlatSettings, LegacyService.getBooleanFieldPaths, mlCounter.get;
    unfold_async; exec.
  all: first [exact I | reflexivity].
Qed.

(** X12: a failed operation can be retried.  When the step of a run on
    the one operation of an index throws, the run leaves that operation
    failed; a creation for the index after it (the index existing) then
    deletes the failed record and, when a destination name can be
    generated, returns a fresh record at [created] with
    [status = inProgress], which is then the one operation found for the
    index.  When no name can be generated the failed record is gone all
    the same and none is found. *)
Theorem failed_operation_can_be_retried name op w :
  current op w ->
  leaseHeld op w = false ->
  filter (fun o => String.eqb (indexName (attributes o)) name) (store w) = [op] ->
  (exists e w2, nextStep (leased op w) (commit (leased op w) w) = (inl e, w2)) ->
  exists failed w3,
    processNextStep op w = (inr failed, w3) /\
    status (attributes failed) = ReindexStatus.failed /\
    (cluster (trace w3) (indices_exists name) = inr true ->
     let searched :=
       setStore (removeObj (id op) (store w3))
                (logRequest (indices_exists name) w3) in
     let outcome := createReindexOperation name w3 in
     let found :=
       filter (fun o => String.eqb (indexName (attributes o)) name)
              (store (snd outcome)) in
     match getNewIndexName name searched with
     | (inr newName, _) =>
         let created :=
           mkSO (nextId w3) 1
                (mkOp name newName ReindexStatus.inProgress ReindexStep.created
                      None None None None) in
         fst outcome = inr created /\ found = [created]
     | (inl e, _) => fst outcome = inl e /\ found = []
     end).
Proof.
  intros Hc Hl Hfind (e & w2 & Hb).
  set (p := fun o => String.eqb (indexName (attributes o)) name) in *.
  set (o1 := leased op w) in *. set (w1 := commit o1 w) in *.
  assert (Hc1 : current o1 w1) by (subst w1; solve_current).
  assert (Hf1 : filter p (store w1) = [o1]) by (apply (find_commit p op); auto).
  pose proof (nextStep_outcome _ _ Hc1) as Hc2.
  pose proof (nextStep_throw_keeps_store _ _ Hc1) as Hst2.
  rewrite Hb in Hc2, Hst2.
  assert (Hf2 : filter p (store w2) = [o1]) by now rewrite Hst2.
  set (o2 := failedWith e o1 w2).
  set (w2' := logRequest (indices_putSettings (indexName (attributes op)) false)
                         (commit o2 w2)).
  assert (Hc2' : current o2 w2') by (subst w2'; solve_current).
  assert (Hf2' : filter p (store w2') = [o2]) by (apply (find_commit p o1); auto).
  set (o3 := released o2). set (w3 := commit o3 w2').
  assert (Hc3 : current o3 w3) by (subst w3; solve_current).
  assert (Hf3 : filter p (store w3) = [o3]) by (apply (find_commit p o2); auto).
  assert (Hp : p o3 = true).
  { assert (Hin : In o3 (filter p (store w3))) by (rewrite Hf3; now left).
    now apply filter_In in Hin. }
  exists o3, w3. split; [apply (run_traps _ _ _ _ Hc Hl Hb Hc2)|].
  split; [reflexivity|].
  intros Hex searched outcome found. subst searched outcome found.
  unfold createReindexOperation, ReindexService.createReindexOperation.
  cbn [findReindexOperations deleteReindexOp createReindexOp actions
       Actions.reindexActionsFactory].
  unfold LegacyService.findReindexOperations, client.find, Actions.deleteReindexOp,
    client.delete, Actions.createReindexOp, client.create.
  unfold_async. rewrite Hex. cbn [negb]. fold p. cbv beta.
  change (store (logRequest (indices_exists name) w3)) with (store w3).
  rewrite Hf3.
  replace (ReindexStatus.eqb (status (attributes o3)) ReindexStatus.failed)
    with true by reflexivity.
  cbv beta iota.
  change (store (logRequest (indices_exists name) w3)) with (store w3).
  unfold current in Hc3.
  change (id o3) with (id op) in *.
  rewrite Hc3.
  assert (Hgone : filter p (removeObj (id op) (store w3)) = []).
  { change (id op) with (id o3).
    rewrite (filter_removeObj p o3 (store w3) Hc3 Hp), Hf3.
    cbn [removeObj]. now rewrite Nat.eqb_refl. }
  set (w4 := setStore (removeObj (id op) (store w3))
                      (logRequest (indices_exists name) w3)) in *.
  pose proof (getNewIndexName_logs_only cluster stackFrames name w4)
    as (Hst & Hid & _).
  change (store w4) with (removeObj (id op) (store w3)) in Hst.
  unfold getNewIndexName.
  destruct (LegacyService.getNewIndexName cluster stackFrames name w4)
    as [[e'|newName] w5]; cbn [fst snd] in *.
  - split; [reflexivity|]. now rewrite Hst.
  - rewrite Hid. split; [reflexivity|].
    cbn [store setNextId setStore]. rewrite filter_app, Hst, Hgone.
    cbn [filter app]. unfold p at 1. cbn [attributes indexName].
    now rewrite String.eqb_refl.
Qed.

(** ** The self-contained service, further *)

(** X14: the creation of the self-contained service does not wait for
    the answer to its existence check.  Even when the cluster answers
    that the index does not exist, an index without a prior operation
    gets a record: with the first candidate name free, the record is
    appended to the store with that name as [newIndexName], at [created]
    with [status = inProgress]. *)
Theorem legacy_creation_ignores_missing_index name w :
  filter (fun o => String.eqb (indexName (attributes o)) name) (store w) = [] ->
  cluster (trace w) (indices_exists name) = inr false ->
  cluster (trace w ++ [indices_exists name]) (indices_exists (candidate name 0))
  = inr false ->
  exists r w',
    LegacyService.createReindexOperation cluster stackFrames name w = (inr r, w') /\
    store w' = store w ++ [r] /\
    attributes r
    = mkOp name (candidate name 0) ReindexStatus.inProgress ReindexStep.created
           None None None None /\
    trace w' = trace w ++ [indices_exists name; indices_exists (candidate name 0)].
Proof.
  intros Hnone Hmissing Hfree.
  unfold LegacyService.createReindexOperation, LegacyService.findReindexOperations,
    client.find, client.create, LegacyService.getNewIndexName.
  change (seq 0 100) with (0%nat :: seq 1 99).
  rewrite getNewIndexName_for_cons.
  unfold_async. cbn. rewrite Hnone. cbn.
  autorewrite with world. rewrite Hfree. cbn.
  eexists _, _. split; [reflexivity|]. cbn.
  rewrite <- app_assoc. repeat split.
Qed.

Let legacyProcessNextStep :=
  LegacyService.processNextStep cluster stackFrames transformFlatSettings
                                findBooleanFields JSON_stringify.

(** One run of the self-contained service on a cooperative cluster. *)
Lemma legacy_cooperative_step name newName task source mappings aliases poll op w :
  Cooperative cluster name newName task source mappings aliases poll ->
  current op w ->
  locked (attributes op) = None ->
  indexName (attributes op) = name ->
  newIndexName (attributes op) = newName ->
  (lastCompletedStep (attributes op) = ReindexStep.reindexStarted ->
   reindexTaskId (attributes op) = Some task) ->
  exists op' w',
    legacyProcessNextStep op w = (inr op', w') /\
    current op' w' /\
    locked (attributes op') = None /\
    indexName (attributes op') = name /\
    newIndexName (attributes op') = newName /\
    match lastCompletedStep (attributes op) with
    | ReindexStep.created =>
        lastCompletedStep (attributes op') = ReindexStep.readonly /\
        trace w' = trace w ++ [indices_putSettings name true]
    | ReindexStep.readonly =>
        lastCompletedStep (attributes op') = ReindexStep.newIndexCreated /\
        trace w'
        = trace w ++ [get_flat_settings name;
                      indices_create newName (fst (transformFlatSettings source))
                                     (snd (transformFlatSettings source))]
    | ReindexStep.newIndexCreated =>
        lastCompletedStep (attributes op') = ReindexStep.reindexStarted /\
        reindexTaskId (attributes op') = Some task /\
        trace w'
        = trace w ++ [indices_getMapping name;
                      reindex name newName
                              (scriptFor (pathsOf findBooleanFields mappings))]
    | ReindexStep.reindexStarted =>
        lastCompletedStep (attributes op') = ReindexStep.reindexCompleted /\
        reindexTaskId (attributes op') = Some task /\
        reindexTaskPercComplete (attributes op') = Some (Lit 1) /\
        trace w' = trace w ++ [tasks_get (Some task); delete_task (Some task)]
    | ReindexStep.reindexCompleted =>
        lastCompletedStep (attributes op') = ReindexStep.aliasCreated /\
        status (attributes op') = ReindexStatus.completed /\
        reindexTaskId (attributes op') = reindexTaskId (attributes op) /\
        reindexTaskPercComplete (attributes op')
        = reindexTaskPercComplete (attributes op) /\
        trace w'
        = trace w ++ [indices_updateAliases [add newName name []; remove_index name]]
    | _ => attributes op' = attributes op /\ trace w' = trace w
    end.
Proof.
  intros Hcoop Hc Hlock Hname Hnew Htask.
  assert (Hl : leaseHeld op w = false) by (unfold leaseHeld; now rewrite Hlock).
  assert (Hall : (task_status_created poll <? task_status_total poll) = false)
    by (apply Z.ltb_ge, (coop_all_created _ _ _ _ _ _ _ _ Hcoop)).
  pose proof (coop_one_type _ _ _ _ _ _ _ _ Hcoop) as Hone.
  unfold legacyProcessNextStep, LegacyService.processNextStep. unfold bind at 1.
  rewrite (acquireLock_free _ _ _ Hc Hl).
  unfold pathsOf, scriptFor.
  destruct mappings as [|[typeName mapping] [|another more]];
    [ | | cbn in Hone; lia ].
  all: destruct (lastCompletedStep (attributes op)) eqn:Hs;
    try specialize (Htask eq_refl);
    unfold LegacyService.setReadonly, LegacyService.createNewIndex,
      LegacyService.startReindexing, LegacyService.updateReindexStatus,
      LegacyService.switchAlias, LegacyService.getFlatSettings,
      LegacyService.getBooleanFieldPaths;
    unfold_async; cbn; rewrite Hs, ?Hname, ?Hnew; cbn;
    repeat (autorewrite with world;
            first [ rewrite (coop_readonly _ _ _ _ _ _ _ _ Hcoop)
                  | rewrite (coop_settings _ _ _ _ _ _ _ _ Hcoop)
                  | rewrite (coop_create _ _ _ _ _ _ _ _ Hcoop)
                  | rewrite (coop_mappings _ _ _ _ _ _ _ _ Hcoop)
                  | rewrite Htask, (coop_poll _ _ _ _ _ _ _ _ Hcoop)
                  | rewrite (coop_complete _ _ _ _ _ _ _ _ Hcoop), Hall
                  | rewrite (coop_delete _ _ _ _ _ _ _ _ Hcoop)
                  | rewrite (coop_switch _ _ _ _ _ _ _ _ Hcoop)
                  | rewrite (coop_reindex _ _ _ _ _ _ _ _ Hcoop)
                  | rewrite String.eqb_refl
                  | match goal with
                    | |- context [transformFlatSettings ?fs] =>
                        destruct (transformFlatSettings fs)
                    | |- context [truthy ?m] => destruct (truthy m)
                    | |- context [match findBooleanFields ?j with _ => _ end] =>
                        destruct (findBooleanFields j)
                    end
                  | rewrite updateReindexOp_current by solve_current
                  | rewrite releaseLock_current by solve_current
                  | progress cbn ]).
  all: eexists _, _; split; [reflexivity|]; split; [solve_current|].
  all: autorewrite with world; rewrite <- ?app_assoc; cbn.
  all: repeat split; try reflexivity; try assumption.
  all: destruct op as [i v a]; destruct a; cbn in *; now subst.
Qed.

(** X15: on a cooperative cluster, five runs of the self-contained
    service take a fresh record from [created] to [aliasCreated] with
    [status = completed] and the lease cleared; the alias update it
    requests holds the add of the alias [indexName] on the new index and
    the removal of the source index, and nothing else. *)
Theorem legacy_run_completes name newName task source mappings aliases poll op w :
  Cooperative cluster name newName task source mappings aliases poll ->
  current op w ->
  locked (attributes op) = None ->
  indexName (attributes op) = name ->
  newIndexName (attributes op) = newName ->
  lastCompletedStep (attributes op) = ReindexStep.created ->
  exists op' w',
    drive legacyProcessNextStep 5 op w = (inr op', w') /\
    current op' w' /\
    status (attributes op') = ReindexStatus.completed /\
    lastCompletedStep (attributes op') = ReindexStep.aliasCreated /\
    locked (attributes op') = None /\
    reindexTaskId (attributes op') = Some task /\
    reindexTaskPercComplete (attributes op') = Some (Lit 1) /\
    trace w'
    = trace w ++ [indices_putSettings name true;
                  get_flat_settings name;
                  indices_create newName (fst (transformFlatSettings source))
                                 (snd (transformFlatSettings source));
                  indices_getMapping name;
                  reindex name newName
                          (scriptFor (pathsOf findBooleanFields mappings));
                  tasks_get (Some task);
                  delete_task (Some task);
                  indices_updateAliases [add newName name []; remove_index name]].
Proof.
  intros Hcoop Hc0 Hk0 Hn0 Hm0 Hs0.
  cbn [drive]. unfold bind, ret.
  destruct (legacy_cooperative_step _ _ _ _ _ _ _ op w Hcoop Hc0 Hk0 Hn0 Hm0)
    as (op1 & w1 & -> & Hc1 & Hk1 & Hn1 & Hm1 & Hstep);
    [intros E; rewrite Hs0 in E; discriminate|].
  rewrite Hs0 in Hstep. destruct Hstep as (Hs1 & Ht1).
  destruct (legacy_cooperative_step _ _ _ _ _ _ _ op1 w1 Hcoop Hc1 Hk1 Hn1 Hm1)
    as (op2 & w2 & -> & Hc2 & Hk2 & Hn2 & Hm2 & Hstep);
    [intros E; rewrite Hs1 in E; discriminate|].
  rewrite Hs1 in Hstep. destruct Hstep as (Hs2 & Ht2).
  destruct (legacy_cooperative_step _ _ _ _ _ _ _ op2 w2 Hcoop Hc2 Hk2 Hn2 Hm2)
    as (op3 & w3 & -> & Hc3 & Hk3 & Hn3 & Hm3 & Hstep);
    [intros E; rewrite Hs2 in E; discriminate|].
  rewrite Hs2 in Hstep. destruct Hstep as (Hs3 & Hid3 & Ht3).
  destruct (legacy_cooperative_step _ _ _ _ _ _ _ op3 w3 Hcoop Hc3 Hk3 Hn3 Hm3)
    as (op4 & w4 & -> & Hc4 & Hk4 & Hn4 & Hm4 & Hstep);
    [intros _; exact Hid3|].
  rewrite Hs3 in Hstep. destruct Hstep as (Hs4 & Hid4 & Hperc4 & Ht4).
  destruct (legacy_cooperative_step _ _ _ _ _ _ _ op4 w4 Hcoop Hc4 Hk4 Hn4 Hm4)
    as (op5 & w5 & -> & Hc5 & Hk5 & Hn5 & Hm5 & Hstep);
    [intros E; rewrite Hs4 in E; discriminate|].
  rewrite Hs4 in Hstep. destruct Hstep as (Hs5 & Hst5 & Hid5 & Hperc5 & Ht5).
  exists op5, w5. split; [reflexivity|].
  repeat (split; [first [assumption | congruence]|]).
  rewrite Ht5, Ht4, Ht3, Ht2, Ht1, <- !app_assoc. reflexivity.
Qed.

End Properties.

(* ------------------------------------------------------------------ *)
(** ** The lease of the self-contained service, at an abandoned stamp *)

(** C1, at a lease abandoned 100 seconds before the attempt: the lease
    is not refused, and the record is stamped with the time of the
    attempt minus the lock window, not with the time of the attempt:
    [now.subtract] has moved the object that is printed.  The lease just
    taken is thus already as old as the window and is not held against
    another attempt at the same instant. *)
Theorem stolen_lease_is_stamped_in_the_past :
  let op := recordOf "logs-2019" ReindexStep.readonly (Some 1546300800000) None in
  let w := worldOf op 0 in
  leaseHeld op w = false /\
  exists op' w',
    LegacyService.acquireLock atService op w = (inr op', w') /\
    locked (attributes op') = Some (clock w - LOCK_WINDOW) /\
    locked (attributes op') <> Some (clock w) /\
    leaseHeld op' w' = false.
Proof.
  cbv zeta. split; [reflexivity|].
  eexists _, _. split; [vm_compute; reflexivity|].
  split; [reflexivity|]. split; [intros [=] | reflexivity].
Qed.

(* ------------------------------------------------------------------ *)
(** ** The worker's constructor guard *)

(** C9: once a construction has succeeded, the instance it returned is
    the singleton, and every further construction, whatever its
    arguments, throws an error and leaves the statics, the singleton
    among them, as they were. *)
Theorem second_construction_throws cluster stackFrames c first c' :
  ReindexWorker.constructor cluster stackFrames c = (inr first, c') ->
  ReindexWorker.workerSingleton c' = Some first /\
  forall attempts,
    snd (ReindexWorker.construct_again attempts c') = c' /\
    Forall (fun r => exists e, r = inl (ThrownError e))
           (fst (ReindexWorker.construct_again attempts c')).
Proof.
  unfold ReindexWorker.constructor.
  destruct (ReindexWorker.workerSingleton c); [discriminate|].
  intros [= <- <-]. split; [reflexivity|].
  induction attempts as [|[cl fr] rest [IHc IHr]]; cbn; [split; [reflexivity | constructor]|].
  destruct (ReindexWorker.construct_again rest _) as [rs c''] eqn:Hrest.
  cbn in *. split; [exact IHc|].
  constructor; [eexists; reflexivity | exact IHr].
Qed.

(* ------------------------------------------------------------------ *)
(** ** The properties at work on scenarios *)

(** Against C2 as stated: with an operation in progress for the index,
    creation fails with status 500, not with the 409 of a conflict. *)
Lemma conflict_is_an_internal_error :
  let op := recordOf "logs-2019" ReindexStep.readonly None None in
  let cluster := scripted running "deleted" (inr (mkAck true)) onlySource in
  exists e w',
    serviceCreate cluster "logs-2019" (worldOf op 0) = (inl e, w') /\
    Boom.statusOf e = Some 500 /\
    Boom.statusOf e <> Some 409 /\
    store w' = store (worldOf op 0).
Proof.
  cbv zeta. eexists _, _. split; [vm_compute; reflexivity|].
  split; [reflexivity|]. split; [intros [=] | reflexivity].
Qed.

(** Against C3 as stated: with [created = total] and a delete that
    reports [not_found], the delete is issued and the step fails with the
    marker still at [reindexStarted]; and with [created < total] and an
    empty list of failures the message holds no failure of the response. *)
Lemma unconfirmed_delete_fails_the_step :
  let op := recordOf "logs-2019" ReindexStep.reindexStarted None (Some "abc123"%string) in
  (exists op' w',
      serviceStep (scripted finished "not_found" (inr (mkAck true)) onlySource)
                  op (worldOf op 0) = (inr op', w') /\
      In (delete_task (Some "abc123"%string)) (trace w') /\
      lastCompletedStep (attributes op') = ReindexStep.reindexStarted /\
      status (attributes op') = ReindexStatus.failed) /\
  (exists op' w',
      serviceStep (scripted (shortOf []) "deleted" (inr (mkAck true)) onlySource)
                  op (worldOf op 0) = (inr op', w') /\
      errorMessage (attributes op')
      = Some ("Error: Reindexing failed with failures like: undefined"
                ++ atService)%string).
Proof.
  cbv zeta. split; eexists _, _; (split; [vm_compute; reflexivity|]).
  - split; [right; left; reflexivity | split; reflexivity].
  - reflexivity.
Qed.


(** The task of scenario 3: 95 of 100 created, one failure listed. *)
Lemma completed_task_step_witness :
  let op := recordOf "logs-2019" ReindexStep.reindexStarted None (Some "abc123"%string) in
  let failure := JObj [("cause"%string, JStr "x")] in
  let cluster := scripted (shortOf [failure]) "deleted" (inr (mkAck true)) onlySource in
  exists op' w',
    serviceStep cluster op (worldOf op 0) = (inr op', w') /\
    lastCompletedStep (attributes op') = ReindexStep.reindexStarted /\
    status (attributes op') = ReindexStatus.failed /\
    exists before after,
      errorMessage (attributes op') = Some (before ++ "{cause:x}" ++ after)%string.
Proof.
  cbv zeta.
  destruct (completed_task_step
              (scripted (shortOf [JObj [("cause"%string, JStr "x")]]) "deleted"
                        (inr (mkAck true)) onlySource)
              atService keepSettings noBooleans render mlSystemIndex
              (recordOf "logs-2019" ReindexStep.reindexStarted None (Some "abc123"%string))
              (worldOf (recordOf "logs-2019" ReindexStep.reindexStarted None
                                 (Some "abc123"%string)) 0)
              (shortOf [JObj [("cause"%string, JStr "x")]])
              eq_refl eq_refl eq_refl eq_refl eq_refl)
    as (op' & w' & Hrun & _ & Hshort & _).
  destruct Hshort as (Hstep & Hstatus & Hmsg); [reflexivity|].
  exists op', w'. repeat split; try assumption.
  exact (Hmsg _ _ eq_refl).
Defined.

(** A task at 10 of 100. *)
Lemma poll_of_running_task_witness :
  let op := recordOf "logs-2019" ReindexStep.reindexStarted None (Some "abc123"%string) in
  let cluster := scripted running "deleted" (inr (mkAck true)) onlySource in
  exists op' w',
    serviceStep cluster op (worldOf op 0) = (inr op', w') /\
    lastCompletedStep (attributes op') = ReindexStep.reindexStarted /\
    status (attributes op') = ReindexStatus.inProgress /\
    reindexTaskPercComplete (attributes op') = Some (Quot 10 100).
Proof.
  cbv zeta.
  destruct (poll_of_running_task_keeps_marker
              (scripted running "deleted" (inr (mkAck true)) onlySource)
              atService keepSettings noBooleans render mlSystemIndex
              (recordOf "logs-2019" ReindexStep.reindexStarted None (Some "abc123"%string))
              (worldOf (recordOf "logs-2019" ReindexStep.reindexStarted None
                                 (Some "abc123"%string)) 0)
              running eq_refl eq_refl eq_refl eq_refl eq_refl)
    as (op' & w' & Hrun & _ & Hstep & Hstatus & Hattrs & _).
  exists op', w'. repeat split; try assumption.
  now rewrite Hattrs.
Defined.


(** The last ML reindex in flight switches upgrade mode off. *)
Lemma unsetMlUpgradeMode_step_witness :
  let op := recordOf ".ml-anomalies" ReindexStep.aliasCreated None (Some "abc123"%string) in
  let cluster := scripted finished "deleted" (inr (mkAck true)) onlySource in
  exists op' w' requests,
    serviceStep cluster op (worldOf op 1) = (inr op', w') /\
    trace w' = requests /\
    mlReindexCount (mlDoc w') = 0 /\
    In (ml_set_upgrade_mode false) requests /\
    status (attributes op') = ReindexStatus.completed /\
    lastCompletedStep (attributes op') = ReindexStep.mlUpgradeModeUnset.
Proof.
  cbv zeta.
  destruct (unsetMlUpgradeMode_step
              (scripted finished "deleted" (inr (mkAck true)) onlySource)
              atService keepSettings noBooleans render mlSystemIndex
              (recordOf ".ml-anomalies" ReindexStep.aliasCreated None
                        (Some "abc123"%string))
              (worldOf (recordOf ".ml-anomalies" ReindexStep.aliasCreated None
                                 (Some "abc123"%string)) 1)
              eq_refl eq_refl eq_refl eq_refl)
    as (op' & w' & requests & Hrun & _ & Htrace & Hcount & Hcall & Hdone).
  destruct Hdone as (Hstatus & Hstep);
    [right; exists (mkAck true); split; reflexivity|].
  exists op', w', requests. repeat split; try assumption.
  now apply Hcall.
Defined.


(** The names for 0 and 1 are taken: the record is created for 2. *)
Lemma getNewIndexName_smallest_free_witness :
  let taken index :=
    (String.eqb index "logs-2019" || String.eqb index "logs-2019-reindex-0"
     || String.eqb index "logs-2019-reindex-1")%bool in
  let cluster := scripted running "deleted" (inr (mkAck true)) taken in
  let w := mkWorld [] 1 (mkMl 1 0 None) [] 1546300900000 in
  answersExistsBy cluster taken /\
  (exists w', LegacyService.getNewIndexName cluster atService "logs-2019" w
              = (inr "logs-2019-reindex-2"%string, w')) /\
  (exists r w', LegacyService.createReindexOperation cluster atService "logs-2019" w
                = (inr r, w') /\
                newIndexName (attributes r) = "logs-2019-reindex-2"%string).
Proof.
  cbv zeta.
  set (taken := fun index =>
                  (String.eqb index "logs-2019" || String.eqb index "logs-2019-reindex-0"
                   || String.eqb index "logs-2019-reindex-1")%bool).
  assert (Hanswers : answersExistsBy (scripted running "deleted" (inr (mkAck true)) taken)
                                     taken) by (intros log index; reflexivity).
  split; [exact Hanswers|].
  destruct (getNewIndexName_smallest_free
              (scripted running "deleted" (inr (mkAck true)) taken) atService
              "logs-2019" taken (mkWorld [] 1 (mkMl 1 0 None) [] 1546300900000)
              Hanswers) as (Hfound & _).
  destruct (Hfound 2%nat) as (Hname & Hcreate).
  - lia.
  - reflexivity.
  - intros [|[|m]] Hm; [reflexivity | reflexivity | lia].
  - split; [exact Hname | exact (Hcreate eq_refl)].
Defined.

(** A first construction, then two more. *)
Lemma second_construction_throws_witness :
  let cluster := scripted running "deleted" (inr (mkAck true)) onlySource in
  let other := scripted finished "deleted" (inr (mkAck true)) onlySource in
  exists first c',
    ReindexWorker.constructor cluster atService (ReindexWorker.mkStatics None)
    = (inr first, c') /\
    ReindexWorker.workerSingleton c' = Some first /\
    snd (ReindexWorker.construct_again [(other, atService); (cluster, atService)] c')
    = c' /\
    Forall (fun r => exists e, r = inl (ThrownError e))
           (fst (ReindexWorker.construct_again
                   [(other, atService); (cluster, atService)] c')).
Proof.
  cbv zeta. eexists _, _. split; [reflexivity|].
  destruct (second_construction_throws
              (scripted running "deleted" (inr (mkAck true)) onlySource) atService
              (ReindexWorker.mkStatics None) _ _ eq_refl) as (Hsingleton & Hagain).
  split; [exact Hsingleton|].
  exact (Hagain [(scripted finished "deleted" (inr (mkAck true)) onlySource, atService);
                 (scripted running "deleted" (inr (mkAck true)) onlySource, atService)]).
Defined.

(** From [mlUpgradeModeSet] to [readonly]. *)
Lemma processNextStep_never_moves_back_witness :
  let op := recordOf "logs-2019" ReindexStep.mlUpgradeModeSet None None in
  let cluster := scripted running "deleted" (inr (mkAck true)) onlySource in
  exists op' w',
    serviceStep cluster op (worldOf op 0) = (inr op', w') /\
    (ReindexStep.position (lastCompletedStep (attributes op))
     <= ReindexStep.position (lastCompletedStep (attributes op')))%nat /\
    stepped cluster (worldOf op 0) (attributes op) (attributes op').
Proof.
  cbv zeta.
  pose proof (processNextStep_never_moves_back
                (scripted running "deleted" (inr (mkAck true)) onlySource)
                atService keepSettings noBooleans render mlSystemIndex
                (recordOf "logs-2019" ReindexStep.mlUpgradeModeSet None None)
                (worldOf (recordOf "logs-2019" ReindexStep.mlUpgradeModeSet None None) 0)
                eq_refl) as Hrun.
  cbv beta iota delta [leaseHeld recordOf attributes locked] in Hrun.
  destruct Hrun as (op' & w' & Hrun & _ & Hle & Hstep).
  exists op', w'. split; [exact Hrun|]. split; [exact Hle|].
  exact Hstep.
Defined.

(* ------------------------------------------------------------------ *)
(** ** The further properties, on scenarios *)

Lemma scripted_is_cooperative mappings :
  (List.length mappings <= 1)%nat ->
  Cooperative (withMappings mappings
                            (scripted finished "deleted" (inr (mkAck true)) onlySource))
              "logs-2019" "logs-2019-reindex-0" "abc123"
              (mkFlat (JObj []) (JObj [])) mappings scriptedAliases finished.
Proof.
  intros Hone. constructor; intros; try reflexivity; try assumption; cbn; lia.
Qed.

Ltac evaluate_scrutinee H :=
  match type of H with
  | match ?body with _ => _ end =>
      let outcome := eval vm_compute in body in
      change body with outcome in H
  end;
  cbv beta iota zeta in H.

Lemma validateNodes_decides_witness :
  let cluster := scripted running "deleted" (inr (mkAck true)) onlySource in
  ReindexService.validateNodesMinimumVersion cluster atService render 6 7 emptyWorld
  = (inr tt, logRequest get_nodes emptyWorld).
Proof.
  cbv zeta.
  assert (Hplain : Forall plainVersion [("node-1"%string, 6, 7, 0, ""%string)]%nat)
    by (constructor; [split; reflexivity | constructor]).
  destruct (validateNodes_decides
              (scripted running "deleted" (inr (mkAck true)) onlySource)
              atService render 6 7 [("node-1"%string, 6, 7, 0, ""%string)]%nat
              emptyWorld Hplain eq_refl) as (Hworld & Hreturn).
  evaluate_scrutinee Hreturn.
  rewrite (surjective_pairing (ReindexService.validateNodesMinimumVersion _ _ _ _ _ _)).
  now rewrite Hworld, Hreturn.
Defined.

Lemma zero_in_major_version_throws_witness :
  let cluster :=
    withNodes [mkNode "node-1" "6.7.0"; mkNode "node-2" "10.1.0"]
              (scripted running "deleted" (inr (mkAck true)) onlySource) in
  exists e,
    ReindexService.validateNodesMinimumVersion cluster atService render 6 7 emptyWorld
    = (inl (ThrownError e), logRequest get_nodes emptyWorld) /\
    name e = "TypeError"%string.
Proof.
  cbv zeta.
  apply (zero_in_major_version_throws
           (withNodes [mkNode "node-1" "6.7.0"; mkNode "node-2" "10.1.0"]
                      (scripted running "deleted" (inr (mkAck true)) onlySource))
           atService render 6 7
           [mkNode "node-1" "6.7.0"; mkNode "node-2" "10.1.0"]
           (mkNode "node-2" "10.1.0") "1" ".1.0" emptyWorld).
  - reflexivity.
  - right. now left.
  - reflexivity.
  - reflexivity.
Defined.

Lemma setMlUpgradeMode_step_witness :
  let op := recordOf ".ml-anomalies" ReindexStep.created None None in
  let cluster := scripted running "deleted" (inr (mkAck true)) onlySource in
  (exists op' w',
      serviceStep cluster op (worldOf op 0) = (inr op', w') /\
      trace w' = [get_nodes; ml_set_upgrade_mode true] /\
      lastCompletedStep (attributes op') = ReindexStep.mlUpgradeModeSet) /\
  (exists op' w',
      serviceStep (withUpgradeMode (inr (mkAck false)) cluster) op (worldOf op 0)
      = (inr op', w') /\
      trace w' = [get_nodes; ml_set_upgrade_mode true;
                  indices_putSettings ".ml-anomalies" false] /\
      failsAt ReindexStep.created ("Error: Could not stop ML jobs" ++ atService)
              (attributes op')).
Proof.
  cbv zeta. split.
  - destruct (setMlUpgradeMode_step
                (scripted running "deleted" (inr (mkAck true)) onlySource)
                atService keepSettings noBooleans render mlSystemIndex
                (recordOf ".ml-anomalies" ReindexStep.created None None)
                (worldOf (recordOf ".ml-anomalies" ReindexStep.created None None) 0)
                eq_refl eq_refl eq_refl eq_refl)
      as (op' & w' & requests & Hrun & _ & Htrace & Hml).
    repeat evaluate_scrutinee Hml.
    destruct Hml as (Hrequests & Hstep & _).
    exists op', w'. split; [exact Hrun|]. split; [|exact Hstep].
    rewrite Htrace, Hrequests. reflexivity.
  - destruct (setMlUpgradeMode_step
                (withUpgradeMode
                   (inr (mkAck false))
                   (scripted running "deleted" (inr (mkAck true)) onlySource))
                atService keepSettings noBooleans render mlSystemIndex
                (recordOf ".ml-anomalies" ReindexStep.created None None)
                (worldOf (recordOf ".ml-anomalies" ReindexStep.created None None) 0)
                eq_refl eq_refl eq_refl eq_refl)
      as (op' & w' & requests & Hrun & _ & Htrace & Hml).
    repeat evaluate_scrutinee Hml.
    destruct Hml as (Hrequests & Hfailed).
    exists op', w'. split; [exact Hrun|]. split; [|exact Hfailed].
    rewrite Htrace, Hrequests. reflexivity.
Defined.

Lemma setReadonly_step_witness :
  let op := recordOf "logs-2019" ReindexStep.mlUpgradeModeSet None None in
  let cluster := scripted running "deleted" (inr (mkAck false)) onlySource in
  exists op' w',
    serviceStep cluster op (worldOf op 0) = (inr op', w') /\
    trace w' = [indices_putSettings "logs-2019" true;
                indices_putSettings "logs-2019" false] /\
    status (attributes op') = ReindexStatus.failed /\
    errorMessage (attributes op')
    = Some ("Error: Index could not be set to readonly." ++ atService)%string.
Proof.
  cbv zeta.
  destruct (setReadonly_step
              (scripted running "deleted" (inr (mkAck false)) onlySource)
              atService keepSettings noBooleans render mlSystemIndex
              (recordOf "logs-2019" ReindexStep.mlUpgradeModeSet None None)
              (worldOf (recordOf "logs-2019" ReindexStep.mlUpgradeModeSet None None) 0)
              eq_refl eq_refl eq_refl)
    as (op' & w' & Hrun & _ & Hput).
  evaluate_scrutinee Hput.
  destruct Hput as (Htrace & _ & Hstatus & Hmessage).
  exists op', w'. repeat split; assumption.
Defined.

Lemma createNewIndex_step_witness :
  let op := recordOf "logs-2019" ReindexStep.readonly None None in
  let cluster := scripted running "deleted" (inr (mkAck true)) onlySource in
  exists op' w',
    serviceStep cluster op (worldOf op 0) = (inr op', w') /\
    trace w' = [get_flat_settings "logs-2019";
                indices_create "logs-2019-reindex-0" (JObj []) (JObj [])] /\
    lastCompletedStep (attributes op') = ReindexStep.newIndexCreated.
Proof.
  cbv zeta.
  destruct (createNewIndex_step
              (scripted running "deleted" (inr (mkAck true)) onlySource)
              atService keepSettings noBooleans render mlSystemIndex
              (recordOf "logs-2019" ReindexStep.readonly None None)
              (worldOf (recordOf "logs-2019" ReindexStep.readonly None None) 0)
              eq_refl eq_refl eq_refl)
    as (op' & w' & requests & Hrun & _ & Htrace & Hcreate).
  evaluate_scrutinee Hcreate.
  destruct Hcreate as (_ & Hacked).
  evaluate_scrutinee Hacked.
  destruct Hacked as (Hrequests & Hstep & _).
  exists op', w'. split; [exact Hrun|]. split; [|exact Hstep].
  rewrite Htrace, Hrequests. reflexivity.
Defined.

Lemma startReindexing_step_witness :
  let op := recordOf "logs-2019" ReindexStep.newIndexCreated None None in
  let cluster := scripted running "deleted" (inr (mkAck true)) onlySource in
  let step mappings :=
    ReindexService.processNextStep
      (withMappings mappings cluster)
      (Actions.reindexActionsFactory (withMappings mappings cluster) atService
                                     flagField mlSystemIndex)
      atService keepSettings render in
  let typed := [("doc"%string, JObj [("properties"%string, JObj [])])] in
  let untyped := [("doc"%string, JNull)] in
  (exists op' w',
      step typed op (worldOf op 0) = (inr op', w') /\
      trace w' = [indices_getMapping "logs-2019";
                  reindex "logs-2019" "logs-2019-reindex-0"
                          (Some (mkScript "painless" [["flag"%string]]))] /\
      lastCompletedStep (attributes op') = ReindexStep.reindexStarted /\
      reindexTaskId (attributes op') = Some "abc123"%string /\
      reindexTaskPercComplete (attributes op') = Some (Lit 0)) /\
  (exists op' w',
      step untyped op (worldOf op 0) = (inr op', w') /\
      trace w' = [indices_getMapping "logs-2019";
                  reindex "logs-2019" "logs-2019-reindex-0" None] /\
      lastCompletedStep (attributes op') = ReindexStep.reindexStarted).
Proof.
  cbv zeta. split.
  - destruct (startReindexing_step
                (withMappings [("doc"%string, JObj [("properties"%string, JObj [])])]
                              (scripted running "deleted" (inr (mkAck true)) onlySource))
                atService keepSettings flagField render mlSystemIndex
                (recordOf "logs-2019" ReindexStep.newIndexCreated None None)
                (worldOf (recordOf "logs-2019" ReindexStep.newIndexCreated None None) 0)
                eq_refl eq_refl eq_refl)
      as (op' & w' & requests & Hrun & _ & Htrace & Hstart).
    repeat evaluate_scrutinee Hstart.
    destruct Hstart as (_ & Hstarted).
    destruct (Hstarted "abc123"%string eq_refl)
      as (Hrequests & Hstep & Htask & Hperc & _).
    exists op', w'. split; [exact Hrun|].
    split; [rewrite Htrace, Hrequests; reflexivity|].
    repeat split; assumption.
  - destruct (startReindexing_step
                (withMappings [("doc"%string, JNull)]
                              (scripted running "deleted" (inr (mkAck true)) onlySource))
                atService keepSettings flagField render mlSystemIndex
                (recordOf "logs-2019" ReindexStep.newIndexCreated None None)
                (worldOf (recordOf "logs-2019" ReindexStep.newIndexCreated None None) 0)
                eq_refl eq_refl eq_refl)
      as (op' & w' & requests & Hrun & _ & Htrace & Hstart).
    repeat evaluate_scrutinee Hstart.
    destruct Hstart as (_ & Hstarted).
    destruct (Hstarted "abc123"%string eq_refl) as (Hrequests & Hstep & _).
    exists op', w'. split; [exact Hrun|].
    split; [rewrite Htrace, Hrequests; reflexivity | exact Hstep].
Defined.

Lemma cooperative_run_completes_witness :
  let op := recordOf "logs-2019" ReindexStep.created None None in
  let typed := [("doc"%string, JObj [("properties"%string, JObj [])])] in
  let cluster :=
    withMappings typed (scripted finished "deleted" (inr (mkAck true)) onlySource) in
  let step :=
    ReindexService.processNextStep
      cluster (Actions.reindexActionsFactory cluster atService flagField mlSystemIndex)
      atService keepSettings render in
  exists op' w',
    drive step 6 op (worldOf op 0) = (inr op', w') /\
    status (attributes op') = ReindexStatus.completed /\
    lastCompletedStep (attributes op') = ReindexStep.aliasCreated /\
    trace w'
    = [indices_putSettings "logs-2019" true;
       get_flat_settings "logs-2019";
       indices_create "logs-2019-reindex-0" (JObj []) (JObj []);
       indices_getMapping "logs-2019";
       reindex "logs-2019" "logs-2019-reindex-0"
               (Some (mkScript "painless" [["flag"%string]]));
       tasks_get (Some "abc123"%string);
       delete_task (Some "abc123"%string);
       indices_getAlias "logs-2019";
       indices_updateAliases
         (aliasActions "logs-2019" "logs-2019-reindex-0" scriptedAliases)].
Proof.
  cbv zeta.
  destruct (cooperative_run_completes
              (withMappings [("doc"%string, JObj [("properties"%string, JObj [])])]
                            (scripted finished "deleted" (inr (mkAck true)) onlySource))
              atService keepSettings flagField render mlSystemIndex
              "logs-2019" "logs-2019-reindex-0" "abc123"
              (mkFlat (JObj []) (JObj []))
              [("doc"%string, JObj [("properties"%string, JObj [])])]
              scriptedAliases finished
              (recordOf "logs-2019" ReindexStep.created None None)
              (worldOf (recordOf "logs-2019" ReindexStep.created None None) 0)
              (scripted_is_cooperative
                 [("doc"%string, JObj [("properties"%string, JObj [])])] (le_n 1))
              eq_refl eq_refl eq_refl eq_refl eq_refl eq_refl)
    as (op' & w' & Hrun & _ & Hstatus & Hstep & _ & _ & _ & Htrace).
  exists op', w'. repeat split; assumption.
Defined.

Lemma pause_then_resume_witness :
  let op := recordOf "logs-2019" ReindexStep.reindexStarted None (Some "abc123"%string) in
  let cluster := scripted running "deleted" (inr (mkAck true)) onlySource in
  let actions := Actions.reindexActionsFactory cluster atService noBooleans mlSystemIndex in
  exists paused w1 resumed w2,
    ReindexService.pauseReindexOperation actions atService "logs-2019" (worldOf op 0)
    = (inr paused, w1) /\
    status (attributes paused) = ReindexStatus.paused /\
    ReindexService.resumeReindexOperation actions atService "logs-2019" w1
    = (inr resumed, w2) /\
    attributes resumed = attributes op /\
    trace w2 = [].
Proof.
  cbv zeta.
  destruct (pause_then_resume
              (scripted running "deleted" (inr (mkAck true)) onlySource)
              atService noBooleans mlSystemIndex "logs-2019"
              (recordOf "logs-2019" ReindexStep.reindexStarted None (Some "abc123"%string))
              (worldOf (recordOf "logs-2019" ReindexStep.reindexStarted None
                                 (Some "abc123"%string)) 0)
              eq_refl eq_refl eq_refl eq_refl)
    as (paused & w1 & resumed & w2 & Hpause & _ & Hstatus & _ & Hresume & _ & Hattrs
        & Htrace).
  exists paused, w1, resumed, w2. repeat split; assumption.
Defined.

Lemma pauseReindexOperation_outcome_witness :
  let op := recordOf "logs-2019" ReindexStep.reindexStarted None (Some "abc123"%string) in
  let cluster := scripted running "deleted" (inr (mkAck true)) onlySource in
  let actions := Actions.reindexActionsFactory cluster atService noBooleans mlSystemIndex in
  (exists paused w',
      ReindexService.pauseReindexOperation actions atService "logs-2019" (worldOf op 0)
      = (inr paused, w') /\
      status (attributes paused) = ReindexStatus.paused) /\
  (exists e,
      ReindexService.pauseReindexOperation actions atService "metrics" (worldOf op 0)
      = (inl (ThrownError e), worldOf op 0) /\
      message e = "No reindex operation found for index metrics"%string).
Proof.
  cbv zeta.
  assert (Hdistinct :
            NoDup (map id (store (worldOf (recordOf "logs-2019" ReindexStep.reindexStarted
                                                    None (Some "abc123"%string)) 0))))
    by (constructor; [intros [] | constructor]).
  split.
  - pose proof (pauseReindexOperation_outcome
                  (scripted running "deleted" (inr (mkAck true)) onlySource)
                  atService noBooleans mlSystemIndex "logs-2019" _ Hdistinct) as Hone.
    evaluate_scrutinee Hone.
    destruct Hone as (paused & w' & Hpause & _ & Hattrs & _).
    exists paused, w'. split; [exact Hpause|]. now rewrite Hattrs.
  - pose proof (pauseReindexOperation_outcome
                  (scripted running "deleted" (inr (mkAck true)) onlySource)
                  atService noBooleans mlSystemIndex "metrics" _ Hdistinct) as Hnone.
    evaluate_scrutinee Hnone.
    destruct Hnone as (e & Hpause & _ & Hmessage).
    exists e. split; assumption.
Defined.

Lemma resumeReindexOperation_outcome_witness :
  let op := recordOf "logs-2019" ReindexStep.reindexStarted None (Some "abc123"%string) in
  let cluster := scripted running "deleted" (inr (mkAck true)) onlySource in
  let actions := Actions.reindexActionsFactory cluster atService noBooleans mlSystemIndex in
  exists e left w',
    ReindexService.resumeReindexOperation actions atService "logs-2019" (worldOf op 0)
    = (inl (ThrownError e), w') /\
    message e = "Reindex operation must be paused in order to be resumed."%string /\
    current left w' /\
    status (attributes left) = ReindexStatus.inProgress.
Proof.
  cbv zeta.
  pose proof (resumeReindexOperation_outcome
                (scripted running "deleted" (inr (mkAck true)) onlySource)
                atService noBooleans mlSystemIndex "logs-2019"
                (recordOf "logs-2019" ReindexStep.reindexStarted None (Some "abc123"%string))
                (worldOf (recordOf "logs-2019" ReindexStep.reindexStarted None
                                   (Some "abc123"%string)) 0)
                eq_refl eq_refl eq_refl) as Hrefused.
  evaluate_scrutinee Hrefused.
  destruct Hrefused as (e & left & w' & Hresume & Hmessage & Hcurrent & Hattrs).
  exists e, left, w'. repeat split; try assumption. now rewrite Hattrs.
Defined.

Lemma swallowExceptions_of_run_witness :
  let op := recordOf "logs-2019" ReindexStep.created (Some 1546300890000) None in
  let cluster := scripted running "deleted" (inr (mkAck true)) onlySource in
  swallowExceptions (serviceStep cluster) quiet op (worldOf op 0)
  = (inr op, worldOf op 0).
Proof.
  cbv zeta.
  pose proof (swallowExceptions_of_run
                (scripted running "deleted" (inr (mkAck true)) onlySource)
                atService keepSettings noBooleans render mlSystemIndex quiet
                (recordOf "logs-2019" ReindexStep.created (Some 1546300890000) None)
                (worldOf (recordOf "logs-2019" ReindexStep.created
                                   (Some 1546300890000) None) 0)
                eq_refl) as Hskipped.
  evaluate_scrutinee Hskipped.
  exact Hskipped.
Defined.

Lemma failed_operation_can_be_retried_witness :
  let op := recordOf "logs-2019" ReindexStep.mlUpgradeModeSet None None in
  let refusal := ThrownError (mkError "Error" None "blah!" atService) in
  let cluster := scripted running "deleted" (inl refusal) onlySource in
  exists failed w3 created w4,
    serviceStep cluster op (worldOf op 0) = (inr failed, w3) /\
    status (attributes failed) = ReindexStatus.failed /\
    serviceCreate cluster "logs-2019" w3 = (inr created, w4) /\
    attributes created
    = mkOp "logs-2019" "logs-2019-reindex-0" ReindexStatus.inProgress
           ReindexStep.created None None None None /\
    filter (fun o => String.eqb (indexName (attributes o)) "logs-2019") (store w4)
    = [created].
Proof.
  cbv zeta.
  destruct (failed_operation_can_be_retried
              (scripted running "deleted"
                        (inl (ThrownError (mkError "Error" None "blah!" atService)))
                        onlySource)
              atService keepSettings noBooleans render mlSystemIndex "logs-2019"
              (recordOf "logs-2019" ReindexStep.mlUpgradeModeSet None None)
              (worldOf (recordOf "logs-2019" ReindexStep.mlUpgradeModeSet None None) 0)
              eq_refl eq_refl eq_refl
              (ex_intro _ _ (ex_intro _ _ eq_refl)))
    as (failed & w3 & Hrun & Hstatus & Hretry).
  specialize (Hretry eq_refl). cbv zeta in Hretry.
  evaluate_scrutinee Hretry.
  destruct Hretry as (Hcreated & Hfound).
  eexists failed, w3, _, _. split; [exact Hrun|]. split; [exact Hstatus|].
  split; [apply injective_projections; [exact Hcreated | reflexivity]|].
  split; [reflexivity | exact Hfound].
Defined.

Lemma fresh_lease_excludes_until_expiry_witness :
  let op := recordOf "logs-2019" ReindexStep.created None None in
  exists o1 w1 e,
    LegacyService.acquireLock atService op (worldOf op 0) = (inr o1, w1) /\
    LegacyService.acquireLock atService o1 (worldOf op 0) = (inl e, worldOf op 0) /\
    Boom.statusOf e = Some 409.
Proof.
  cbv zeta.
  destruct (fresh_lease_excludes_until_expiry
              atService (recordOf "logs-2019" ReindexStep.created None None)
              (worldOf (recordOf "logs-2019" ReindexStep.created None None) 0)
              eq_refl eq_refl)
    as (o1 & w1 & stamp & Hlock & _ & _ & Hstamp & _ & Hrefused & _).
  destruct (Hrefused (worldOf (recordOf "logs-2019" ReindexStep.created None None) 0))
    as (e & Hsecond & Hconflict).
  - unfold LOCK_WINDOW. cbn [clock worldOf] in *. lia.
  - exists o1, w1, e. repeat split; assumption.
Defined.

Lemma legacy_creation_ignores_missing_index_witness :
  let cluster := scripted running "deleted" (inr (mkAck true)) nothingTaken in
  exists r w',
    LegacyService.createReindexOperation cluster atService "ghost" emptyWorld
    = (inr r, w') /\
    store w' = [r] /\
    indexName (attributes r) = "ghost"%string.
Proof.
  cbv zeta.
  destruct (legacy_creation_ignores_missing_index
              (scripted running "deleted" (inr (mkAck true)) nothingTaken)
              atService "ghost" emptyWorld eq_refl eq_refl eq_refl)
    as (r & w' & Hcreate & Hstore & Hattrs & _).
  exists r, w'. split; [exact Hcreate|]. split; [exact Hstore|]. now rewrite Hattrs.
Defined.

Lemma legacy_run_completes_witness :
  let op := recordOf "logs-2019" ReindexStep.created None None in
  let untyped := [("doc"%string, JNull)] in
  let cluster :=
    withMappings untyped (scripted finished "deleted" (inr (mkAck true)) onlySource) in
  exists op' w',
    drive (LegacyService.processNextStep cluster atService keepSettings flagField render)
          5 op (worldOf op 0)
    = (inr op', w') /\
    status (attributes op') = ReindexStatus.completed /\
    lastCompletedStep (attributes op') = ReindexStep.aliasCreated /\
    trace w'
    = [indices_putSettings "logs-2019" true;
       get_flat_settings "logs-2019";
       indices_create "logs-2019-reindex-0" (JObj []) (JObj []);
       indices_getMapping "logs-2019";
       reindex "logs-2019" "logs-2019-reindex-0" None;
       tasks_get (Some "abc123"%string);
       delete_task (Some "abc123"%string);
       indices_updateAliases
         [add "logs-2019-reindex-0" "logs-2019" []; remove_index "logs-2019"]].
Proof.
  cbv zeta.
  destruct (legacy_run_completes
              (withMappings [("doc"%string, JNull)]
                            (scripted finished "deleted" (inr (mkAck true)) onlySource))
              atService keepSettings flagField render
              "logs-2019" "logs-2019-reindex-0" "abc123"
              (mkFlat (JObj []) (JObj [])) [("doc"%string, JNull)]
              scriptedAliases finished
              (recordOf "logs-2019" ReindexStep.created None None)
              (worldOf (recordOf "logs-2019" ReindexStep.created None None) 0)
              (scripted_is_cooperative [("doc"%string, JNull)] (le_n 1))
              eq_refl eq_refl eq_refl eq_refl eq_refl)
    as (op' & w' & Hrun & _ & Hstatus & Hstep & _ & _ & _ & Htrace).
  exists op', w'. repeat split; assumption.
Defined.

Lemma legacy_processNextStep_releases_witness :
  let op := recordOf "logs-2019" ReindexStep.created None None in
  let cluster := scripted running "deleted" (inr (mkAck true)) onlySource in
  exists op' w',
    LegacyService.processNextStep cluster atService keepSettings noBooleans render
                                  op (worldOf op 0)
    = (inr op', w') /\
    locked (attributes op') = None.
Proof.
  cbv zeta.
  destruct (legacy_processNextStep_releases
              (scripted running "deleted" (inr (mkAck true)) onlySource)
              atService keepSettings noBooleans render
              (recordOf "logs-2019" ReindexStep.created None None)
              (worldOf (recordOf "logs-2019" ReindexStep.created None None) 0)
              eq_refl eq_refl)
    as (op' & w' & Hrun & _ & Hfree).
  exists op', w'. split; assumption.
Defined.
